(** * find_growth_stocks: growth screening of quarterly fundamentals

    A shallow embedding of [find_growth_stocks.py] and the properties of its
    growth computation ([get_annual_growth]), of the threshold filter and the
    per-symbol loop of [main], and of the final ranking.

    Numbers are IEEE 754 binary64 values, the float64 of the CSV columns and
    the [float] of the command line: they are the [spec_float] of the standard
    library at precision 53, whose operations are plain functions, so that
    every definition below evaluates.  Python exceptions are an error monad.

    The first definitions are on the frames of the data model: float64
    columns, and market caps that are numbers.  The module [Csv] has the
    same functions on the columns as [pd.read_csv] types them, with int64
    columns and cells that are texts; on the frames of the data model the
    two agree (lemmas [csv_get_annual_growth] and [csv_main]). *)

From Stdlib Require Import ZArith List Bool Lia Permutation Sorted.
From Stdlib Require Import Floats.SpecFloat.
From Stdlib Require String DecimalString.
Import ListNotations String.StringSyntax.
Local Open Scope string_scope.
Local Open Scope Z_scope.

(** ** binary64 arithmetic *)

Module F64.

Definition prec : Z := 53.
Definition emax : Z := 1024.

Definition float : Type := spec_float.

Definition nan : float := S754_nan.

(** An integer literal, rounded to the nearest binary64. *)
Definition of_Z (z : Z) : float := binary_normalize prec emax z 0 false.

Definition sub (x y : float) : float := SFsub prec emax x y.
Definition mul (x y : float) : float := SFmul prec emax x y.
Definition div (x y : float) : float := SFdiv prec emax x y.
Definition abs (x : float) : float := SFabs x.

(** [x < y], [x == y]; every comparison with a NaN is false. *)
Definition ltb (x y : float) : bool := SFltb x y.
Definition eqb (x y : float) : bool := SFeqb x y.

Definition leb (x y : float) : bool := SFleb x y.

(** [x > y] and [x != y] of Python. *)
Definition gtb (x y : float) : bool := ltb y x.
Definition neqb (x y : float) : bool := negb (eqb x y).

Definition is_nan (x : float) : bool :=
  match x with S754_nan => true | _ => false end.

(** [pd.notna] on a scalar. *)
Definition notna (x : float) : bool := negb (is_nan x).

End F64.

(** ** Exceptions *)

Inductive exn : Type :=
| KeyError
| ValueError
| IndexError
| TypeError
| ReadError.

Inductive res (A : Type) : Type :=
| Ret (a : A)
| Raise (e : exn).

Arguments Ret {A} a.
Arguments Raise {A} e.

Definition bind {A B : Type} (m : res A) (k : A -> res B) : res B :=
  match m with
  | Ret a => k a
  | Raise e => Raise e
  end.

Notation "x <- m ;; k" := (bind m (fun x => k))
  (at level 61, m at next level, right associativity).

(** [try: body except Exception as e: handler e]. *)
Definition try_except {A : Type} (body : res A) (handler : exn -> res A) : res A :=
  match body with
  | Ret a => Ret a
  | Raise e => handler e
  end.

(** ** Dates and frames *)

Record date : Type := mkDate { dyear : Z; dmonth : Z; dday : Z }.

Definition date_ltb (a b : date) : bool :=
  (dyear a <? dyear b)
  || ((dyear a =? dyear b)
      && ((dmonth a <? dmonth b)
          || ((dmonth a =? dmonth b) && (dday a <? dday b)))).

(** One line of a fundamentals file, its date parsed by [pd.to_datetime],
    its two columns float64. *)
Record fs_row : Type :=
  mkFs { fs_date : date; revenue : F64.float; op_margin : F64.float }.

(** One line of a market-cap file, its market cap a float64 number. *)
Record ms_row : Type := mkMs { ms_date : date; market_cap : F64.float }.

(** [df["날짜"].dt.year] and [df["날짜"].dt.quarter]. *)
Definition year (r : fs_row) : Z := dyear (fs_date r).
Definition quarter (r : fs_row) : Z := (dmonth (fs_date r) - 1) / 3 + 1.

Definition key : Type := (Z * Z)%type.

Definition key_eqb (a b : key) : bool := (fst a =? fst b) && (snd a =? snd b).

Definition key_of (r : fs_row) : key := (year r, quarter r).

(** ** Stable sorting

    [sort_values] and [list.sort] are modelled by insertion sort: [x] goes in
    front of the first element that is not strictly before it, so that equal
    elements keep their order.  On keys that are totally ordered every stable
    sort returns this list. *)

Section StableSort.
Context {A : Type}.
Variable lt : A -> A -> bool.

Fixpoint insert (x : A) (l : list A) : list A :=
  match l with
  | [] => [x]
  | y :: l' => if lt y x then y :: insert x l' else x :: y :: l'
  end.

Definition stable_sort (l : list A) : list A := fold_right insert [] l.

End StableSort.

(** [df.sort_values("날짜", ascending=False)]: latest date first, lines of
    the same date in the order of the file.  Two fundamentals lines of the
    same date have the same (year, quarter), and of an anchor only that key
    is read, so their order does not show in [get_annual_growth]. *)
Definition sort_values_desc {A : Type} (d : A -> date) (l : list A) : list A :=
  stable_sort (fun x y => date_ltb (d y) (d x)) l.

(** ** The (year, quarter) index

    [df.set_index(["year", "quarter"]).sort_index()] followed by
    [df.loc[(y, q)]].  pandas raises [KeyError] when no line has the key.  On
    an index without repeated keys the lookup is the one line with that key
    (a Series).  On an index with a repeated key the lookup is a slice of the
    frame (a DataFrame), whatever the number of lines it selects: the
    position of a full key in a MultiIndex that is not unique is a slice. *)

Definition frame : Type := list fs_row.

Inductive selection : Type :=
| Line (r : fs_row)
| Lines (rs : list fs_row).

Fixpoint is_unique (ks : list key) : bool :=
  match ks with
  | [] => true
  | k :: ks' => negb (existsb (key_eqb k) ks') && is_unique ks'
  end.

Definition has_key (k : key) (r : fs_row) : bool := key_eqb (key_of r) k.

Definition loc (df : frame) (k : key) : res selection :=
  match filter (has_key k) df with
  | [] => Raise KeyError
  | [r] => if is_unique (map key_of df) then Ret (Line r) else Ret (Lines [r])
  | rs => Ret (Lines rs)
  end.

(** A column of a lookup: a scalar for a line, a Series for a slice. *)
Inductive cell : Type :=
| Scalar (x : F64.float)
| Series (xs : list F64.float).

Definition column (f : fs_row -> F64.float) (s : selection) : cell :=
  match s with
  | Line r => Scalar (f r)
  | Lines rs => Series (map f rs)
  end.

(** The operand of [and], [if] or a comparison used as a condition: the truth
    value of a Series is ambiguous and pandas raises [ValueError]. *)
Definition scalar (c : cell) : res F64.float :=
  match c with
  | Scalar x => Ret x
  | Series _ => Raise ValueError
  end.

(** [recent_rows.iloc[i]]. *)
Definition iloc {A : Type} (l : list A) (i : nat) : res A :=
  match nth_error l i with
  | Some a => Ret a
  | None => Raise IndexError
  end.

(** ** get_annual_growth *)

(** [100 * (curr - prev) / abs(prev)] on a float64 column; on an int64
    column the difference and the product are those of 64-bit integers
    ([Csv.growth_pct]). *)
Definition growth_pct (curr prev : F64.float) : F64.float :=
  F64.div (F64.mul (F64.of_Z 100) (F64.sub curr prev)) (F64.abs prev).

Record recent_values : Type :=
  mkRecent { rv_revenue : option cell; rv_op_margin : option cell }.

Record growth : Type :=
  mkGrowth { rev_growths : list F64.float;
             opm_growths : list F64.float;
             recent : recent_values }.

(** [pd.notna(curr) and pd.notna(prev) and prev != 0], then the append. *)
Definition revenue_step (curr prev : cell) (acc : list F64.float)
  : res (list F64.float) :=
  c <- scalar curr ;;
  if F64.notna c then
    p <- scalar prev ;;
    if F64.notna p && F64.neqb p (F64.of_Z 0)
    then Ret (acc ++ [growth_pct c p])
    else Ret acc
  else Ret acc.

(** [pd.notna(curr) and pd.notna(prev) and curr > 0 and prev > 0], then the
    append. *)
Definition op_margin_step (curr prev : cell) (acc : list F64.float)
  : res (list F64.float) :=
  c <- scalar curr ;;
  if F64.notna c then
    p <- scalar prev ;;
    if F64.notna p && F64.gtb c (F64.of_Z 0) && F64.gtb p (F64.of_Z 0)
    then Ret (acc ++ [growth_pct c p])
    else Ret acc
  else Ret acc.

(** The body of the [try] for anchor [i]. *)
Definition anchor_body (df recent_rows : frame) (i : nat) (st : growth)
  : res growth :=
  row <- iloc recent_rows i ;;
  let curr_q := (year row, quarter row) in
  let prev_q := (year row - 1, quarter row) in
  curr <- loc df curr_q ;;
  prev <- loc df prev_q ;;
  let rv := if Nat.eqb i 0
            then mkRecent (Some (column revenue curr))
                          (Some (column op_margin curr))
            else recent st in
  revs <- revenue_step (column revenue curr) (column revenue prev)
                       (rev_growths st) ;;
  opms <- op_margin_step (column op_margin curr) (column op_margin prev)
                         (opm_growths st) ;;
  Ret (mkGrowth revs opms rv).

(** [for i in range(required_quarters)], with [except KeyError: return None,
    None, None]; any other exception leaves the function. *)
Fixpoint anchor_loop (df recent_rows : frame) (idx : list nat) (st : growth)
  : res (option growth) :=
  match idx with
  | [] => Ret (Some st)
  | i :: idx' =>
      match anchor_body df recent_rows i st with
      | Ret st' => anchor_loop df recent_rows idx' st'
      | Raise KeyError => Ret None
      | Raise e => Raise e
      end
  end.

Definition no_growth : growth := mkGrowth [] [] (mkRecent None None).

(** [None] is the triple [None, None, None]. *)
Definition get_annual_growth (df : frame) (required_quarters : nat)
  : res (option growth) :=
  let df := sort_values_desc fs_date df in
  if Nat.ltb (length df) required_quarters then Ret None
  else anchor_loop df (firstn required_quarters df)
                   (seq 0 required_quarters) no_growth.

(** ** main: arguments, threshold filter, per-symbol loop *)

(** [parse_args]: the parsed command line. *)
Record args : Type :=
  mkArgs { pergro_revenue : F64.float;
           pergro_op_margin : F64.float;
           num_result : Z;
           revenue_limit : F64.float;
           op_margin_limit : F64.float }.

(** The defaults [1000e8] and [100e8]. *)
Definition default_revenue_limit : F64.float := F64.of_Z 100000000000.
Definition default_op_margin_limit : F64.float := F64.of_Z 10000000000.

(** Why a symbol is skipped: one constructor for each [Skipping ...] line. *)
Inductive skip_reason : Type :=
| MarketCapNotFound
| InsufficientData
| RecentRevenueBelowLimit
| RecentOpMarginBelowLimit
| BothAvailableFailed
| OnlyRevenueFailed
| OnlyOpMarginFailed
| NeitherAvailable
| ProcessingError (e : exn).

(** The truth value of a list: it is not empty. *)
Definition truthy {A : Type} (l : list A) : bool :=
  match l with [] => false | _ :: _ => true end.

(** [gs and len(gs) == 2 and all(g > threshold for g in gs)]. *)
Definition growth_ok (threshold : F64.float) (gs : list F64.float) : bool :=
  truthy gs && Nat.eqb (List.length gs) 2
  && forallb (fun g => F64.gtb g threshold) gs.

Definition rev_ok (a : args) (revs : list F64.float) : bool :=
  growth_ok (pergro_revenue a) revs.

Definition opm_ok (a : args) (opms : list F64.float) : bool :=
  growth_ok (pergro_op_margin a) opms.

(** The [if rev_growths and opm_growths: ... elif ... else] cascade: the
    reason to skip, or [None] to go on. *)
Definition growth_gate (a : args) (revs opms : list F64.float)
  : option skip_reason :=
  if truthy revs && truthy opms then
    if negb (rev_ok a revs && opm_ok a opms) then Some BothAvailableFailed
    else None
  else if truthy revs then
    if negb (rev_ok a revs) then Some OnlyRevenueFailed else None
  else if truthy opms then
    if negb (opm_ok a opms) then Some OnlyOpMarginFailed else None
  else Some NeitherAvailable.

(** [recent is not None and recent < limit]. *)
Definition below_limit (v : option cell) (limit : F64.float) : res bool :=
  match v with
  | None => Ret false
  | Some c => x <- scalar c ;; Ret (F64.ltb x limit)
  end.

(** The checks of [main] between [get_annual_growth] and the market cap. *)
Definition threshold_filter (a : args) (g : growth) : res (option skip_reason) :=
  low_rev <- below_limit (rv_revenue (recent g)) (revenue_limit a) ;;
  if low_rev then Ret (Some RecentRevenueBelowLimit)
  else
    low_opm <- below_limit (rv_op_margin (recent g)) (op_margin_limit a) ;;
    if low_opm then Ret (Some RecentOpMarginBelowLimit)
    else Ret (growth_gate a (rev_growths g) (opm_growths g)).

(** [get_latest_market_cap]: [iloc[0]] of an empty frame raises. *)
Definition get_latest_market_cap (df : list ms_row) : res F64.float :=
  match sort_values_desc ms_date df with
  | [] => Raise IndexError
  | r :: _ => Ret (market_cap r)
  end.

(** A tuple appended to [results]. *)
Record result_row : Type :=
  mkResult { symbol : String.string;
             rev_g1 : F64.float;
             rev_g2 : F64.float;
             opm_g1 : F64.float;
             opm_g2 : F64.float;
             mcap : F64.float }.

(** [gs[i] if gs and len(gs) > i else float("nan")]. *)
Definition growth_or_nan (gs : list F64.float) (i : nat) : F64.float :=
  nth i gs F64.nan.

Inductive verdict : Type :=
| Accepted (r : result_row)
| Skipped (why : skip_reason).

(** The body of the [try] of [main] for one symbol; the two arguments are
    what [pd.read_csv] gives for its two files, a frame or an exception.
    The dates of a frame are those [pd.to_datetime] reads in it. *)
Definition process_symbol (a : args) (sym : String.string)
  (fs_file : res frame) (ms_file : res (list ms_row)) : res verdict :=
  fs_df <- fs_file ;;
  ms_df <- ms_file ;;
  g <- get_annual_growth fs_df 2 ;;
  match g with
  | None => Ret (Skipped InsufficientData)
  | Some g =>
      why <- threshold_filter a g ;;
      match why with
      | Some r => Ret (Skipped r)
      | None =>
          cap <- get_latest_market_cap ms_df ;;
          Ret (Accepted
                 (mkResult sym
                    (growth_or_nan (rev_growths g) 0)
                    (growth_or_nan (rev_growths g) 1)
                    (growth_or_nan (opm_growths g) 0)
                    (growth_or_nan (opm_growths g) 1)
                    cap))
      end
  end.

(** A [*.csv] member of the fundamentals directory: its symbol (the file
    name without [.csv]), what reading the file gives, and what reading the
    market-cap file of the symbol gives when that file exists. *)
Record entry : Type :=
  mkEntry { e_symbol : String.string;
            e_fs : res frame;
            e_ms : option (res (list ms_row)) }.

(** [results] and the [Skipping ...] lines printed so far. *)
Record run_state : Type :=
  mkRun { results : list result_row;
          skipped : list (String.string * skip_reason) }.

Definition skip (st : run_state) (sym : String.string) (why : skip_reason)
  : run_state :=
  mkRun (results st) (skipped st ++ [(sym, why)]).

Definition record (st : run_state) (sym : String.string) (v : verdict)
  : run_state :=
  match v with
  | Accepted r => mkRun (results st ++ [r]) (skipped st)
  | Skipped why => skip st sym why
  end.

(** One turn of [for fname in os.listdir(fs_dir)]. *)
Definition loop_body (a : args) (e : entry) (st : run_state) : res run_state :=
  match e_ms e with
  | None => Ret (skip st (e_symbol e) MarketCapNotFound)
  | Some ms_file =>
      try_except
        (v <- process_symbol a (e_symbol e) (e_fs e) ms_file ;;
         Ret (record st (e_symbol e) v))
        (fun ex => Ret (skip st (e_symbol e) (ProcessingError ex)))
  end.

Fixpoint main_loop (a : args) (es : list entry) (st : run_state)
  : res run_state :=
  match es with
  | [] => Ret st
  | e :: es' => st' <- loop_body a e st ;; main_loop a es' st'
  end.

(** ** Ranking *)

(** [results.sort(key=lambda x: x[-1])]. *)
Definition sort_by_market_cap (rs : list result_row) : list result_row :=
  stable_sort (fun x y => F64.ltb (mcap x) (mcap y)) rs.

(** The slice [l[:n]]: a negative [n] counts from the end. *)
Definition slice_to {A : Type} (n : Z) (l : list A) : list A :=
  if 0 <=? n then firstn (Z.to_nat n) l
  else firstn (Z.to_nat (Z.of_nat (List.length l) + n)) l.

Definition rank (rs : list result_row) (count : Z) : list result_row :=
  slice_to count (sort_by_market_cap rs).

(** [main]: the lines of the final table and the skipped symbols.  The sort
    and the prints after the loop are outside the [try]; on market caps that
    are numbers they do not raise, and are plain functions here.
    [Csv.main] has them on market caps of any type. *)
Definition main (a : args) (es : list entry)
  : res (list result_row * list (String.string * skip_reason)) :=
  st <- main_loop a es (mkRun [] []) ;;
  Ret (rank (results st) (num_result a), skipped st).

(** ** fmt *)

(** [num / den] rounded to the nearest integer, ties to even ([den > 0]). *)
Definition round_half_even (num den : Z) : Z :=
  let q := num / den in
  match 2 * (num mod den) ?= den with
  | Lt => q
  | Gt => q + 1
  | Eq => if Z.even q then q else q + 1
  end.

(** The hundredths of [m * 2^e], as the [.2f] conversion rounds them. *)
Definition hundredths (m : positive) (e : Z) : Z :=
  if 0 <=? e then Zpos m * 2 ^ e * 100
  else round_half_even (Zpos m * 100) (2 ^ (- e)).

Definition decimal (z : Z) : String.string :=
  DecimalString.NilZero.string_of_uint (N.to_uint (Z.to_N z)).

Definition two_digits (z : Z) : String.string :=
  if z <? 10 then String.append "0" (decimal z) else decimal z.

Definition fixed2 (neg : bool) (h : Z) : String.string :=
  String.append (if neg then "-" else "")
    (String.append (decimal (h / 100))
       (String.append "." (two_digits (h mod 100)))).

(** [f"{val:.2f}" if not math.isnan(val) else "NaN"]. *)
Definition fmt (val : F64.float) : String.string :=
  match val with
  | S754_nan => "NaN"
  | S754_infinity s => (if s then "-inf" else "inf")
  | S754_zero s => fixed2 s 0
  | S754_finite s m e => fixed2 s (hundredths m e)
  end.

(** ** What the loop does with one entry *)

(** The outcome of one turn of the loop: the missing market-cap file is
    noticed before anything is read, and an exception of the [try] body is a
    skip of its own. *)
Definition entry_verdict (a : args) (e : entry) : verdict :=
  match e_ms e with
  | None => Skipped MarketCapNotFound
  | Some ms_file =>
      match process_symbol a (e_symbol e) (e_fs e) ms_file with
      | Ret v => v
      | Raise ex => Skipped (ProcessingError ex)
      end
  end.

Definition accepted_row (a : args) (e : entry) : list result_row :=
  match entry_verdict a e with
  | Accepted r => [r]
  | Skipped _ => []
  end.

Definition skipped_line (a : args) (e : entry)
  : list (String.string * skip_reason) :=
  match entry_verdict a e with
  | Accepted _ => []
  | Skipped why => [(e_symbol e, why)]
  end.

(** ** The specification's wording, for comparison *)

(** Availability as the specification words it: exactly two entries. *)
Definition spec_available (gs : list F64.float) : bool :=
  Nat.eqb (List.length gs) 2.

Definition all_exceed (threshold : F64.float) (gs : list F64.float) : bool :=
  forallb (fun g => F64.gtb g threshold) gs.

(** The decision table of the specification over that availability. *)
Definition spec_accept (a : args) (revs opms : list F64.float) : bool :=
  match spec_available revs, spec_available opms with
  | true, true =>
      all_exceed (pergro_revenue a) revs && all_exceed (pergro_op_margin a) opms
  | true, false => all_exceed (pergro_revenue a) revs
  | false, true => all_exceed (pergro_op_margin a) opms
  | false, false => false
  end.

(** The order of the per-symbol steps as the specification words it: growth,
    then thresholds, and the market cap only for a symbol that passed both. *)
Definition spec_order_verdict (a : args) (e : entry) : verdict :=
  let body : res verdict :=
    fs_df <- e_fs e ;;
    g <- get_annual_growth fs_df 2 ;;
    match g with
    | None => Ret (Skipped InsufficientData)
    | Some g =>
        why <- threshold_filter a g ;;
        match why with
        | Some r => Ret (Skipped r)
        | None =>
            match e_ms e with
            | None => Ret (Skipped MarketCapNotFound)
            | Some ms_file =>
                ms_df <- ms_file ;;
                cap <- get_latest_market_cap ms_df ;;
                Ret (Accepted
                       (mkResult (e_symbol e)
                          (growth_or_nan (rev_growths g) 0)
                          (growth_or_nan (rev_growths g) 1)
                          (growth_or_nan (opm_growths g) 0)
                          (growth_or_nan (opm_growths g) 1)
                          cap))
            end
        end
    end in
  match body with
  | Ret v => v
  | Raise ex => Skipped (ProcessingError ex)
  end.

(** ** Predicates of the statements *)

(** The prior-year key of a line has no line in the frame. *)
Definition prior_year_absent (df : frame) (r : fs_row) : bool :=
  negb (existsb (has_key (year r - 1, quarter r)) df).

(** The two anchor quarters: the first two lines by date, latest first. *)
Definition anchors (df : frame) : list fs_row :=
  firstn 2 (sort_values_desc fs_date df).

(** What an anchor line [c] with the prior-year line [p] adds to the revenue
    growths and to the margin growths. *)
Definition revenue_entry (c p : fs_row) : list F64.float :=
  if F64.notna (revenue c) && F64.notna (revenue p)
     && F64.neqb (revenue p) (F64.of_Z 0)
  then [growth_pct (revenue c) (revenue p)] else [].

Definition op_margin_entry (c p : fs_row) : list F64.float :=
  if F64.notna (op_margin c) && F64.notna (op_margin p)
     && F64.gtb (op_margin c) (F64.of_Z 0)
     && F64.gtb (op_margin p) (F64.of_Z 0)
  then [growth_pct (op_margin c) (op_margin p)] else [].

(** [v is not None and v < limit] on a scalar. *)
Definition present_below (v : option F64.float) (limit : F64.float) : bool :=
  match v with
  | Some x => F64.ltb x limit
  | None => false
  end.




(** ** Sample data *)

Definition fs (y m dd rev opm : Z) : fs_row :=
  mkFs (mkDate y m dd) (F64.of_Z rev) (F64.of_Z opm).

(** Scenario A: 2024Q2, 2023Q2, 2024Q1 and 2023Q1. *)
Definition scenario_a : frame :=
  [ fs 2024 6 30 120 20; fs 2023 6 30 100 15;
    fs 2024 3 31 110 18; fs 2023 3 31 90 10 ].

Definition args_a : args :=
  mkArgs (F64.of_Z 15) (F64.of_Z 20) 10 (F64.of_Z 0) (F64.of_Z 0).

(** Scenario B: the margin threshold raised to 50. *)
Definition args_b : args :=
  mkArgs (F64.of_Z 15) (F64.of_Z 50) 10 (F64.of_Z 0) (F64.of_Z 0).

Definition caps_a : list ms_row :=
  [ mkMs (mkDate 2024 7 1) (F64.of_Z 50000000000);
    mkMs (mkDate 2024 7 2) (F64.of_Z 20000000000) ].

(** 2024Q2, 2024Q1 and 2023Q2: no 2023Q1. *)
Definition no_prior_q1 : frame :=
  [ fs 2024 6 30 120 20; fs 2024 3 31 110 18; fs 2023 6 30 100 15 ].

(** Scenario A with a negative 2023Q2 margin: two revenue entries and one
    margin entry. *)
Definition one_margin_entry : frame :=
  [ fs 2024 6 30 120 20; fs 2023 6 30 100 (-5);
    fs 2024 3 31 110 18; fs 2023 3 31 90 10 ].

(** Scenario C: the prior-year margins are negative, the revenues as in
    scenario A. *)
Definition scenario_c : frame :=
  [ fs 2024 6 30 120 20; fs 2023 6 30 100 (-5);
    fs 2024 3 31 110 18; fs 2023 3 31 90 (-3) ].

(** 2023Q2 filed twice and no 2023Q1. *)
Definition repeated_prior : frame :=
  [ fs 2024 6 30 120 20; fs 2024 3 31 110 18;
    fs 2023 6 30 100 15; fs 2023 5 31 100 15 ].

(** One line of fundamentals and no market-cap file. *)
Definition lonely : entry :=
  mkEntry "A000001" (Ret [fs 2024 6 30 120 20]) None.

Definition two_rows : list result_row :=
  [ mkResult "A" F64.nan F64.nan F64.nan F64.nan (F64.of_Z 50000000000);
    mkResult "B" F64.nan F64.nan F64.nan F64.nan (F64.of_Z 20000000000) ].

(** The latest quarter without revenue; margins 20 over 15 and 18 over 10. *)
Definition revenue_missing : frame :=
  [ mkFs (mkDate 2024 6 30) F64.nan (F64.of_Z 20);
    mkFs (mkDate 2023 6 30) F64.nan (F64.of_Z 15);
    mkFs (mkDate 2024 3 31) F64.nan (F64.of_Z 18);
    mkFs (mkDate 2023 3 31) F64.nan (F64.of_Z 10) ].

Definition revenue_missing_growth : growth :=
  Eval vm_compute in
    match get_annual_growth revenue_missing 2 with
    | Ret (Some g) => g
    | _ => no_growth
    end.

Definition args_default : args :=
  mkArgs (F64.of_Z 15) (F64.of_Z 20) 10
         default_revenue_limit (F64.of_Z 0).

(** ** Further predicates and sample data *)

Definition scenario_a_growth : growth :=
  Eval vm_compute in
    match get_annual_growth scenario_a 2 with
    | Ret (Some g) => g
    | _ => no_growth
    end.

(** [a'] asks no more than [a]: each threshold and each floor of [a'] is at
    most that of [a]. *)
Definition weaker (a' a : args) : Prop :=
  F64.leb (pergro_revenue a') (pergro_revenue a) = true
  /\ F64.leb (pergro_op_margin a') (pergro_op_margin a) = true
  /\ F64.leb (revenue_limit a') (revenue_limit a) = true
  /\ F64.leb (op_margin_limit a') (op_margin_limit a) = true.

Definition args_loose : args :=
  mkArgs (F64.of_Z 10) (F64.of_Z 10) 10 (F64.of_Z 0) (F64.of_Z 0).

(** The two growth columns of a metric in a line of the table: both above
    the threshold, or both missing. *)
Definition metric_complete (threshold g1 g2 : F64.float) : Prop :=
  F64.gtb g1 threshold = true /\ F64.gtb g2 threshold = true.

Definition metric_absent (g1 g2 : F64.float) : Prop :=
  F64.is_nan g1 = true /\ F64.is_nan g2 = true.

(** The arguments with the roles of revenue and margin exchanged. *)
Definition swap_metrics (a : args) : args :=
  mkArgs (pergro_op_margin a) (pergro_revenue a) (num_result a)
         (op_margin_limit a) (revenue_limit a).

Definition swap_reason (why : skip_reason) : skip_reason :=
  match why with
  | RecentRevenueBelowLimit => RecentOpMarginBelowLimit
  | RecentOpMarginBelowLimit => RecentRevenueBelowLimit
  | OnlyRevenueFailed => OnlyOpMarginFailed
  | OnlyOpMarginFailed => OnlyRevenueFailed
  | other => other
  end.

Definition good_entry (sym : String.string) : entry :=
  mkEntry sym (Ret scenario_a) (Some (Ret caps_a)).

(** Scenario D: a symbol of market cap 5e10 listed before one of 2e10. *)
Definition caps_d : list ms_row :=
  [ mkMs (mkDate 2024 7 2) (F64.of_Z 50000000000) ].

Definition scenario_d : list entry :=
  [ mkEntry "LARGE" (Ret scenario_a) (Some (Ret caps_d)); good_entry "SMALL" ].

(** A dot in a string. *)
Fixpoint has_dot (s : String.string) : bool :=
  match s with
  | String.EmptyString => false
  | String.String c s' =>
      String.eqb (String.String c String.EmptyString) "." || has_dot s'
  end.

Definition no_row : result_row :=
  mkResult "" F64.nan F64.nan F64.nan F64.nan F64.nan.

Definition scenario_a_row : result_row :=
  Eval vm_compute in
    match entry_verdict args_a (good_entry "A") with
    | Accepted r => r
    | Skipped _ => no_row
    end.

Definition date_eqb (a b : date) : bool :=
  (dyear a =? dyear b) && (dmonth a =? dmonth b) && (dday a =? dday b).

(** No two of the dates are the same. *)
Fixpoint distinct_dates (ds : list date) : bool :=
  match ds with
  | [] => true
  | d :: ds' => negb (existsb (date_eqb d) ds') && distinct_dates ds'
  end.

(** The result with the roles of revenue and margin exchanged. *)
Definition swap_growth (g : growth) : growth :=
  mkGrowth (opm_growths g) (rev_growths g)
           (mkRecent (rv_op_margin (recent g)) (rv_revenue (recent g))).

Definition args_nan : args :=
  mkArgs F64.nan F64.nan 10 (F64.of_Z 0) (F64.of_Z 0).

(** ** The directories

    The start of the loop of [main]: [os.listdir(fs_dir)], the test
    [fname.endswith(".csv")], [symbol = fname.replace(".csv", "")] and the
    market-cap file [f"{symbol}_d.csv"] of the other directory.  File names
    are byte strings. *)

(** [p] is the start of [s]. *)
Fixpoint starts_with (p s : String.string) : bool :=
  match p with
  | String.EmptyString => true
  | String.String a p' =>
      match s with
      | String.EmptyString => false
      | String.String b s' => Ascii.eqb a b && starts_with p' s'
      end
  end.

(** [s.endswith(suffix)]. *)
Fixpoint endswith (s suffix : String.string) : bool :=
  String.eqb s suffix
  || match s with
     | String.EmptyString => false
     | String.String _ s' => endswith s' suffix
     end.

(** [sub in s]. *)
Fixpoint contains (sub s : String.string) : bool :=
  starts_with sub s
  || match s with
     | String.EmptyString => false
     | String.String _ s' => contains sub s'
     end.

(** [s.replace(old, new)] for an [old] that is not empty, read from the
    left: at an occurrence of [old] the text [new] is written and the
    [skip] further characters of the occurrence are passed over. *)
Fixpoint replace_from (old new : String.string) (skip : nat)
  (s : String.string) : String.string :=
  match s with
  | String.EmptyString => String.EmptyString
  | String.String c s' =>
      match skip with
      | S k => replace_from old new k s'
      | O =>
          if starts_with old s
          then String.append new
                 (replace_from old new (String.length old - 1) s')
          else String.String c (replace_from old new O s')
      end
  end.

Definition replace (old new s : String.string) : String.string :=
  replace_from old new 0 s.

Definition symbol_of (fname : String.string) : String.string :=
  replace ".csv" "" fname.

Definition ms_name (sym : String.string) : String.string :=
  String.append sym "_d.csv".

(** The two directories: the names [os.listdir(fs_dir)] gives, what
    [pd.read_csv] gives for a name of [fs_dir], and for a name of [ms_dir]
    what it gives when [os.path.exists] holds, [None] otherwise. *)
Record directories : Type :=
  mkDirs { listing : list String.string;
           read_fs : String.string -> res frame;
           read_ms : String.string -> option (res (list ms_row)) }.

Definition entry_of (d : directories) (fname : String.string) : list entry :=
  if endswith fname ".csv"
  then [mkEntry (symbol_of fname) (read_fs d fname)
                (read_ms d (ms_name (symbol_of fname)))]
  else [].

Definition entries_of (d : directories) : list entry :=
  flat_map (entry_of d) (listing d).

(** [main] on the two directories. *)
Definition main_in (a : args) (d : directories)
  : res (list result_row * list (String.string * skip_reason)) :=
  main a (entries_of d).

Definition sample_dirs : directories :=
  mkDirs ["005930.csv"; "notes.txt"; "000660.csv"]
         (fun _ => Ret scenario_a)
         (fun name => if String.eqb name "005930_d.csv"
                      then Some (Ret caps_a) else None).

(** ** The printed table

    The two [print] calls at the end of [main].  A field [{x:<w}] or
    [{x:>w}] is filled with blanks up to the width [w] and is never cut;
    widths count characters, which are bytes here. *)

Fixpoint spaces (n : nat) : String.string :=
  match n with
  | O => String.EmptyString
  | S k => String.append " " (spaces k)
  end.

(** [{s:<w}] and [{s:>w}]. *)
Definition ljust (w : nat) (s : String.string) : String.string :=
  String.append s (spaces (w - String.length s)).

Definition rjust (w : nat) (s : String.string) : String.string :=
  String.append (spaces (w - String.length s)) s.

(** The tenths of [m * 2^e], as the [.1f] conversion rounds them. *)
Definition tenths (m : positive) (e : Z) : Z :=
  if 0 <=? e then Zpos m * 2 ^ e * 10
  else round_half_even (Zpos m * 10) (2 ^ (- e)).

(** The [,] option: a comma before each group of three digits, counted
    from the right. *)
Fixpoint group3 (digits : String.string) : String.string :=
  match digits with
  | String.EmptyString => String.EmptyString
  | String.String c rest =>
      String.String c
        (if Nat.ltb 0 (String.length rest)
            && Nat.eqb (Nat.modulo (String.length rest) 3) 0
         then String.append "," (group3 rest)
         else group3 rest)
  end.

Definition grouped1 (neg : bool) (t : Z) : String.string :=
  String.append (if neg then "-" else "")
    (String.append (group3 (decimal (t / 10)))
       (String.append "." (decimal (t mod 10)))).

(** [f"{mcap:,.1f}"]. *)
Definition fmt_cap (val : F64.float) : String.string :=
  match val with
  | S754_nan => "nan"
  | S754_infinity s => (if s then "-inf" else "inf")
  | S754_zero s => grouped1 s 0
  | S754_finite s m e => grouped1 s (tenths m e)
  end.

Definition join_fields (fields : list String.string) : String.string :=
  String.concat " " fields.

(** The heading, after the line feed that starts it. *)
Definition heading : String.string :=
  join_fields [ljust 10 "Symbol"; rjust 10 "Rev_G1(%)"; rjust 10 "Rev_G2(%)";
               rjust 10 "OpM_G1(%)"; rjust 10 "OpM_G2(%)";
               rjust 15 "MarketCap"].

(** The line of one symbol. *)
Definition table_line (r : result_row) : String.string :=
  join_fields [ljust 10 (symbol r);
               rjust 10 (fmt (rev_g1 r)); rjust 10 (fmt (rev_g2 r));
               rjust 10 (fmt (opm_g1 r)); rjust 10 (fmt (opm_g2 r));
               rjust 15 (fmt_cap (mcap r))].

(** What [main] prints after the loop: an empty line, the heading and the
    lines of the table. *)
Definition printed_table (a : args) (es : list entry)
  : res (list String.string) :=
  out <- main a es ;;
  Ret (String.EmptyString :: heading :: map table_line (fst out)).

(** ** Columns as pd.read_csv types them

    The frames above are those of the data model: float64 columns, and
    market caps that are numbers.  [pd.read_csv] takes the type of a column
    from the file.  A column of whole numbers without a gap is int64, and
    its arithmetic is that of 64-bit integers.  A column with a cell that
    does not read as a number has the dtype object, and its cells are texts.
    The module [Csv] follows the source on such columns: the two columns of
    a fundamentals file are int64 or float64, cell by cell, and a market cap
    is a number or a text.  What it does not define anew (dates, keys, the
    sorts of a frame, the arguments, the growth gate, the slice, [fmt]) it
    shares with the definitions above. *)

Module Csv.

(** A numeric cell: a [numpy.int64] or a [numpy.float64]. *)
Inductive number : Type :=
| Int64 (z : Z)
| Float64 (x : F64.float).

(** The result of an int64 operation: the exact result modulo [2^64], taken
    in [[-2^63, 2^63)]. *)
Definition wrap (z : Z) : Z := (z + 2 ^ 63) mod 2 ^ 64 - 2 ^ 63.

(** The conversion to float64, to the nearest value. *)
Definition to_float (n : number) : F64.float :=
  match n with
  | Int64 z => F64.of_Z z
  | Float64 x => x
  end.

(** [a - b]: in int64 between two int64, in float64 otherwise. *)
Definition sub (a b : number) : number :=
  match a, b with
  | Int64 x, Int64 y => Int64 (wrap (x - y))
  | _, _ => Float64 (F64.sub (to_float a) (to_float b))
  end.

(** [k * a] for a Python int [k]: the type of [a] is kept. *)
Definition times (k : Z) (a : number) : number :=
  match a with
  | Int64 x => Int64 (wrap (k * x))
  | Float64 x => Float64 (F64.mul (F64.of_Z k) x)
  end.

(** [abs(a)]. *)
Definition abs (a : number) : number :=
  match a with
  | Int64 x => Int64 (wrap (Z.abs x))
  | Float64 x => Float64 (F64.abs x)
  end.

(** [a / b]: the true division, in float64 whatever the operands. *)
Definition truediv (a b : number) : F64.float :=
  F64.div (to_float a) (to_float b).

(** [pd.notna(a)], [a != 0] and [a > 0]. *)
Definition notna (a : number) : bool :=
  match a with
  | Int64 _ => true
  | Float64 x => F64.notna x
  end.

Definition nonzero (a : number) : bool :=
  match a with
  | Int64 z => negb (z =? 0)
  | Float64 x => F64.neqb x (F64.of_Z 0)
  end.

Definition positive (a : number) : bool :=
  match a with
  | Int64 z => 0 <? z
  | Float64 x => F64.gtb x (F64.of_Z 0)
  end.

(** [a < limit] for a Python float [limit]: the comparison is in float64. *)
Definition below (a : number) (limit : F64.float) : bool :=
  F64.ltb (to_float a) limit.

(** [a < b]: exact between two int64, in float64 otherwise. *)
Definition ltb (a b : number) : bool :=
  match a, b with
  | Int64 x, Int64 y => x <? y
  | _, _ => F64.ltb (to_float a) (to_float b)
  end.

(** One line of a fundamentals file. *)
Record fs_row : Type :=
  mkFs { fs_date : date; revenue : number; op_margin : number }.

Definition year (r : fs_row) : Z := dyear (fs_date r).
Definition quarter (r : fs_row) : Z := (dmonth (fs_date r) - 1) / 3 + 1.

Definition key_of (r : fs_row) : key := (year r, quarter r).

Definition frame : Type := list fs_row.

Inductive selection : Type :=
| Line (r : fs_row)
| Lines (rs : list fs_row).

Definition has_key (k : key) (r : fs_row) : bool := key_eqb (key_of r) k.

(** [df.loc[(y, q)]] on the (year, quarter) index. *)
Definition loc (df : frame) (k : key) : res selection :=
  match filter (has_key k) df with
  | [] => Raise KeyError
  | [r] => if is_unique (map key_of df) then Ret (Line r) else Ret (Lines [r])
  | rs => Ret (Lines rs)
  end.

Inductive cell : Type :=
| Scalar (x : number)
| Series (xs : list number).

Definition column (f : fs_row -> number) (s : selection) : cell :=
  match s with
  | Line r => Scalar (f r)
  | Lines rs => Series (map f rs)
  end.

Definition scalar (c : cell) : res number :=
  match c with
  | Scalar x => Ret x
  | Series _ => Raise ValueError
  end.

(** [100 * (curr - prev) / abs(prev)]: the difference, the product and the
    absolute value in the type of the column, the quotient in float64. *)
Definition growth_pct (curr prev : number) : F64.float :=
  truediv (times 100 (sub curr prev)) (abs prev).

Record recent_values : Type :=
  mkRecent { rv_revenue : option cell; rv_op_margin : option cell }.

Record growth : Type :=
  mkGrowth { rev_growths : list F64.float;
             opm_growths : list F64.float;
             recent : recent_values }.

(** [pd.notna(curr) and pd.notna(prev) and prev != 0], then the append. *)
Definition revenue_step (curr prev : cell) (acc : list F64.float)
  : res (list F64.float) :=
  c <- scalar curr ;;
  if notna c then
    p <- scalar prev ;;
    if notna p && nonzero p
    then Ret (acc ++ [growth_pct c p])
    else Ret acc
  else Ret acc.

(** [pd.notna(curr) and pd.notna(prev) and curr > 0 and prev > 0], then the
    append. *)
Definition op_margin_step (curr prev : cell) (acc : list F64.float)
  : res (list F64.float) :=
  c <- scalar curr ;;
  if notna c then
    p <- scalar prev ;;
    if notna p && positive c && positive p
    then Ret (acc ++ [growth_pct c p])
    else Ret acc
  else Ret acc.

(** The body of the [try] for anchor [i]. *)
Definition anchor_body (df recent_rows : frame) (i : nat) (st : growth)
  : res growth :=
  row <- iloc recent_rows i ;;
  let curr_q := (year row, quarter row) in
  let prev_q := (year row - 1, quarter row) in
  curr <- loc df curr_q ;;
  prev <- loc df prev_q ;;
  let rv := if Nat.eqb i 0
            then mkRecent (Some (column revenue curr))
                          (Some (column op_margin curr))
            else recent st in
  revs <- revenue_step (column revenue curr) (column revenue prev)
                       (rev_growths st) ;;
  opms <- op_margin_step (column op_margin curr) (column op_margin prev)
                         (opm_growths st) ;;
  Ret (mkGrowth revs opms rv).

Fixpoint anchor_loop (df recent_rows : frame) (idx : list nat) (st : growth)
  : res (option growth) :=
  match idx with
  | [] => Ret (Some st)
  | i :: idx' =>
      match anchor_body df recent_rows i st with
      | Ret st' => anchor_loop df recent_rows idx' st'
      | Raise KeyError => Ret None
      | Raise e => Raise e
      end
  end.

Definition no_growth : growth := mkGrowth [] [] (mkRecent None None).

Definition get_annual_growth (df : frame) (required_quarters : nat)
  : res (option growth) :=
  let df := sort_values_desc fs_date df in
  if Nat.ltb (List.length df) required_quarters then Ret None
  else anchor_loop df (firstn required_quarters df)
                   (seq 0 required_quarters) no_growth.

(** [recent is not None and recent < limit]. *)
Definition below_limit (v : option cell) (limit : F64.float) : res bool :=
  match v with
  | None => Ret false
  | Some c => x <- scalar c ;; Ret (below x limit)
  end.

Definition threshold_filter (a : args) (g : growth) : res (option skip_reason) :=
  low_rev <- below_limit (rv_revenue (recent g)) (revenue_limit a) ;;
  if low_rev then Ret (Some RecentRevenueBelowLimit)
  else
    low_opm <- below_limit (rv_op_margin (recent g)) (op_margin_limit a) ;;
    if low_opm then Ret (Some RecentOpMarginBelowLimit)
    else Ret (growth_gate a (rev_growths g) (opm_growths g)).

(** A cell of the [market_cap] column: a number, or the text of a column
    that did not read as numbers. *)
Inductive value : Type :=
| Number (n : number)
| Text (s : String.string).

Record ms_row : Type := mkMs { ms_date : date; market_cap : value }.

(** [get_latest_market_cap] returns the cell as it is. *)
Definition get_latest_market_cap (df : list ms_row) : res value :=
  match sort_values_desc ms_date df with
  | [] => Raise IndexError
  | r :: _ => Ret (market_cap r)
  end.

Record result_row : Type :=
  mkResult { symbol : String.string;
             rev_g1 : F64.float;
             rev_g2 : F64.float;
             opm_g1 : F64.float;
             opm_g2 : F64.float;
             mcap : value }.

Inductive verdict : Type :=
| Accepted (r : result_row)
| Skipped (why : skip_reason).

(** The body of the [try] of [main] for one symbol. *)
Definition process_symbol (a : args) (sym : String.string)
  (fs_file : res frame) (ms_file : res (list ms_row)) : res verdict :=
  fs_df <- fs_file ;;
  ms_df <- ms_file ;;
  g <- get_annual_growth fs_df 2 ;;
  match g with
  | None => Ret (Skipped InsufficientData)
  | Some g =>
      why <- threshold_filter a g ;;
      match why with
      | Some r => Ret (Skipped r)
      | None =>
          cap <- get_latest_market_cap ms_df ;;
          Ret (Accepted
                 (mkResult sym
                    (growth_or_nan (rev_growths g) 0)
                    (growth_or_nan (rev_growths g) 1)
                    (growth_or_nan (opm_growths g) 0)
                    (growth_or_nan (opm_growths g) 1)
                    cap))
      end
  end.

Record entry : Type :=
  mkEntry { e_symbol : String.string;
            e_fs : res frame;
            e_ms : option (res (list ms_row)) }.

Record run_state : Type :=
  mkRun { results : list result_row;
          skipped : list (String.string * skip_reason) }.

Definition skip (st : run_state) (sym : String.string) (why : skip_reason)
  : run_state :=
  mkRun (results st) (skipped st ++ [(sym, why)]).

Definition record (st : run_state) (sym : String.string) (v : verdict)
  : run_state :=
  match v with
  | Accepted r => mkRun (results st ++ [r]) (skipped st)
  | Skipped why => skip st sym why
  end.

(** One turn of [for fname in os.listdir(fs_dir)]. *)
Definition loop_body (a : args) (e : entry) (st : run_state) : res run_state :=
  match e_ms e with
  | None => Ret (skip st (e_symbol e) MarketCapNotFound)
  | Some ms_file =>
      try_except
        (v <- process_symbol a (e_symbol e) (e_fs e) ms_file ;;
         Ret (record st (e_symbol e) v))
        (fun ex => Ret (skip st (e_symbol e) (ProcessingError ex)))
  end.

Fixpoint main_loop (a : args) (es : list entry) (st : run_state)
  : res run_state :=
  match es with
  | [] => Ret st
  | e :: es' => st' <- loop_body a e st ;; main_loop a es' st'
  end.

(** [x < y] on two keys of [results.sort]: Python orders two numbers and
    two texts, and raises [TypeError] for a number and a text. *)
Definition key_lt (x y : value) : res bool :=
  match x, y with
  | Number a, Number b => Ret (ltb a b)
  | Text s, Text t => Ret (String.ltb s t)
  | _, _ => Raise TypeError
  end.

(** [results.sort(key=lambda x: x[-1])], after the loop and outside its
    [try]: the stable insertion sort of above, with a comparison that may
    raise.  [list.sort] does not make the same comparisons, but it too
    compares a number with a text whenever the keys hold both. *)
Fixpoint insert (x : result_row) (l : list result_row)
  : res (list result_row) :=
  match l with
  | [] => Ret [x]
  | y :: l' =>
      b <- key_lt (mcap y) (mcap x) ;;
      if b then (s <- insert x l' ;; Ret (y :: s)) else Ret (x :: y :: l')
  end.

Fixpoint sort (l : list result_row) : res (list result_row) :=
  match l with
  | [] => Ret []
  | x :: l' => s <- sort l' ;; insert x s
  end.

(** [f"{mcap:>15,.1f}"]: the conversion [f] of a text raises
    [ValueError]. *)
Definition fmt_value (v : value) : res String.string :=
  match v with
  | Number n => Ret (fmt_cap (to_float n))
  | Text _ => Raise ValueError
  end.

(** The [print] of one line of the table. *)
Definition table_line (r : result_row) : res String.string :=
  cap <- fmt_value (mcap r) ;;
  Ret (join_fields [ljust 10 (symbol r);
                    rjust 10 (fmt (rev_g1 r)); rjust 10 (fmt (rev_g2 r));
                    rjust 10 (fmt (opm_g1 r)); rjust 10 (fmt (opm_g2 r));
                    rjust 15 cap]).

Fixpoint print_lines (rs : list result_row) : res (list String.string) :=
  match rs with
  | [] => Ret []
  | r :: rs' =>
      line <- table_line r ;; rest <- print_lines rs' ;; Ret (line :: rest)
  end.

(** [main]: the loop, then the sort and the prints, none of them in a
    [try].  The run returns the lines of the table, as tuples and as printed,
    and the skipped symbols; an exception of the sort or of a print ends the
    run. *)
Record output : Type :=
  mkOutput { table : list result_row;
             printed : list String.string;
             log : list (String.string * skip_reason) }.

Definition main (a : args) (es : list entry) : res output :=
  st <- main_loop a es (mkRun [] []) ;;
  sorted <- sort (results st) ;;
  let rows := slice_to (num_result a) sorted in
  lines <- print_lines rows ;;
  Ret (mkOutput rows (String.EmptyString :: heading :: lines) (skipped st)).

(** The outcome of one turn of the loop. *)
Definition entry_verdict (a : args) (e : entry) : verdict :=
  match e_ms e with
  | None => Skipped MarketCapNotFound
  | Some ms_file =>
      match process_symbol a (e_symbol e) (e_fs e) ms_file with
      | Ret v => v
      | Raise ex => Skipped (ProcessingError ex)
      end
  end.

Definition accepted_row (a : args) (e : entry) : list result_row :=
  match entry_verdict a e with
  | Accepted r => [r]
  | Skipped _ => []
  end.

Definition skipped_line (a : args) (e : entry)
  : list (String.string * skip_reason) :=
  match entry_verdict a e with
  | Accepted _ => []
  | Skipped why => [(e_symbol e, why)]
  end.

(** The market cap of a line is a number. *)
Definition is_number (v : value) : bool :=
  match v with
  | Number _ => true
  | Text _ => false
  end.

(** The two directories, and [main] on them. *)
Record directories : Type :=
  mkDirs { listing : list String.string;
           read_fs : String.string -> res frame;
           read_ms : String.string -> option (res (list ms_row)) }.

Definition entry_of (d : directories) (fname : String.string) : list entry :=
  if endswith fname ".csv"
  then [mkEntry (symbol_of fname) (read_fs d fname)
                (read_ms d (ms_name (symbol_of fname)))]
  else [].

Definition entries_of (d : directories) : list entry :=
  flat_map (entry_of d) (listing d).

Definition main_in (a : args) (d : directories) : res output :=
  main a (entries_of d).

(** A line of fundamentals in int64 columns. *)
Definition ints (y m dd rev opm : Z) : fs_row :=
  mkFs (mkDate y m dd) (Int64 rev) (Int64 opm).

End Csv.

(** ** Sample data in the columns as they are read *)

(** Scenario A in int64 columns. *)
Definition scenario_a_int64 : Csv.frame :=
  [ Csv.ints 2024 6 30 120 20; Csv.ints 2023 6 30 100 15;
    Csv.ints 2024 3 31 110 18; Csv.ints 2023 3 31 90 10 ].


(** A market-cap file whose column is a number, and one whose column is the
    text of a dash. *)
Definition number_cap : list Csv.ms_row :=
  [ Csv.mkMs (mkDate 2024 7 2) (Csv.Number (Csv.Int64 20000000000)) ].

Definition text_cap : list Csv.ms_row :=
  [ Csv.mkMs (mkDate 2024 7 2) (Csv.Text "-") ].

Definition number_cap_entry : Csv.entry :=
  Csv.mkEntry "GOOD" (Ret scenario_a_int64) (Some (Ret number_cap)).

Definition text_cap_entry : Csv.entry :=
  Csv.mkEntry "DASH" (Ret scenario_a_int64) (Some (Ret text_cap)).

(** A market-cap file with its heading and no line. *)
Definition no_cap_entry : Csv.entry :=
  Csv.mkEntry "VOID" (Ret scenario_a_int64) (Some (Ret [])).

(** The frames of the data model as frames of [Csv]: float64 columns and
    market caps that are float64 numbers. *)
Definition csv_fs_row (r : fs_row) : Csv.fs_row :=
  Csv.mkFs (fs_date r) (Csv.Float64 (revenue r)) (Csv.Float64 (op_margin r)).

Definition csv_ms_row (r : ms_row) : Csv.ms_row :=
  Csv.mkMs (ms_date r) (Csv.Number (Csv.Float64 (market_cap r))).

Definition csv_result_row (r : result_row) : Csv.result_row :=
  Csv.mkResult (symbol r) (rev_g1 r) (rev_g2 r) (opm_g1 r) (opm_g2 r)
               (Csv.Number (Csv.Float64 (mcap r))).

Definition csv_res {A B : Type} (f : A -> B) (m : res A) : res B :=
  match m with
  | Ret a => Ret (f a)
  | Raise e => Raise e
  end.

Definition csv_entry (e : entry) : Csv.entry :=
  Csv.mkEntry (e_symbol e) (csv_res (map csv_fs_row) (e_fs e))
              (option_map (csv_res (map csv_ms_row)) (e_ms e)).

Definition csv_selection (s : selection) : Csv.selection :=
  match s with
  | Line r => Csv.Line (csv_fs_row r)
  | Lines rs => Csv.Lines (map csv_fs_row rs)
  end.

Definition csv_cell (c : cell) : Csv.cell :=
  match c with
  | Scalar x => Csv.Scalar (Csv.Float64 x)
  | Series xs => Csv.Series (map Csv.Float64 xs)
  end.

Definition csv_growth (g : growth) : Csv.growth :=
  Csv.mkGrowth (rev_growths g) (opm_growths g)
    (Csv.mkRecent (option_map csv_cell (rv_revenue (recent g)))
                  (option_map csv_cell (rv_op_margin (recent g)))).

Definition csv_verdict (v : verdict) : Csv.verdict :=
  match v with
  | Accepted r => Csv.Accepted (csv_result_row r)
  | Skipped why => Csv.Skipped why
  end.


(** ** A tactic for the order of three binary64 values *)

Ltac float_order x y z :=
  destruct x as [?|?| |? ? ?], y as [?|?| |? ? ?], z as [?|?| |? ? ?];
  simpl; intros; try reflexivity; try discriminate;
  repeat match goal with s : bool |- _ => destruct s end; simpl in *;
  try reflexivity; try discriminate;
  change (Pos.compare_cont Eq) with Pos.compare in *;
  repeat match goal with
         | H : context [Z.compare ?a ?b] |- _ =>
             destruct (Z.compare_spec a b); simpl in *
         | |- context [Z.compare ?a ?b] =>
             destruct (Z.compare_spec a b); simpl in *
         end;
  try discriminate; try reflexivity; try lia; subst;
  repeat match goal with
         | H : context [Pos.compare ?a ?b] |- _ =>
             destruct (Pos.compare_spec a b); simpl in *
         | |- context [Pos.compare ?a ?b] =>
             destruct (Pos.compare_spec a b); simpl in *
         end;
  try discriminate; try reflexivity; try lia.

(** * Properties *)

(** ** The error monad *)

Lemma bind_ret {A B : Type} (m : res A) (k : A -> res B) (b : B) :
  bind m k = Ret b -> exists a, m = Ret a /\ k a = Ret b.
Proof.
  destruct m as [a|e]; simpl; intros H; [exists a; auto | discriminate].
Qed.

(** ** Stable sorting *)

Section StableSortFacts.
Context {A : Type}.
Variable lt : A -> A -> bool.

Lemma insert_perm (x : A) (l : list A) : Permutation (insert lt x l) (x :: l).
Proof.
  induction l as [|y l IH]; simpl; [reflexivity|].
  destruct (lt y x); [|reflexivity].
  rewrite IH. apply perm_swap.
Qed.

Lemma stable_sort_perm (l : list A) : Permutation (stable_sort lt l) l.
Proof.
  induction l as [|x l IH]; simpl; [constructor|].
  rewrite insert_perm. now constructor.
Qed.

Lemma stable_sort_length (l : list A) :
  List.length (stable_sort lt l) = List.length l.
Proof. apply Permutation_length, stable_sort_perm. Qed.

Lemma stable_sort_In (x : A) (l : list A) : In x (stable_sort lt l) <-> In x l.
Proof.
  split; apply Permutation_in;
    [apply stable_sort_perm | symmetry; apply stable_sort_perm].
Qed.



Variable ok : A -> Prop.
Hypothesis lt_asym : forall x y, lt x y = true -> lt y x = false.
Hypothesis le_trans :
  forall x y z, ok y -> lt y x = false -> lt z y = false -> lt z x = false.

Lemma insert_sorted (x : A) (l : list A) :
  Forall ok l ->
  StronglySorted (fun a b => lt b a = false) l ->
  StronglySorted (fun a b => lt b a = false) (insert lt x l).
Proof.
  intros Hok Hs. induction Hs as [|y l Hs IH Hy]; simpl.
  - repeat constructor.
  - inversion Hok as [|? ? Hoky Hokl]; subst.
    destruct (lt y x) eqn:Hyx.
    + constructor; [auto|].
      eapply Permutation_Forall; [symmetry; apply insert_perm|].
      constructor; [apply lt_asym, Hyx | exact Hy].
    + constructor; [constructor; assumption|].
      constructor; [exact Hyx|].
      apply Forall_forall. intros z Hz.
      apply (le_trans x y z Hoky Hyx).
      exact (proj1 (Forall_forall _ _) Hy z Hz).
Qed.

Lemma stable_sort_sorted (l : list A) :
  Forall ok l -> StronglySorted (fun a b => lt b a = false) (stable_sort lt l).
Proof.
  induction l as [|x l IH]; simpl; intros Hok; [constructor|].
  inversion Hok; subst. apply insert_sorted; [|auto].
  eapply Permutation_Forall; [symmetry; apply stable_sort_perm|auto].
Qed.

End StableSortFacts.

(** ** The order of binary64 *)



Lemma ltb_nan_l (y : F64.float) : F64.ltb F64.nan y = false.
Proof. reflexivity. Qed.

Lemma ltb_nan_r (x : F64.float) : F64.ltb x F64.nan = false.
Proof. destruct x; reflexivity. Qed.

Lemma is_nan_eq (x : F64.float) : F64.is_nan x = true -> x = F64.nan.
Proof. destruct x; simpl; intros H; try discriminate; reflexivity. Qed.




(** ** Ranking *)


Lemma sort_by_market_cap_perm (rs : list result_row) :
  Permutation (sort_by_market_cap rs) rs.
Proof. apply stable_sort_perm. Qed.




Lemma slice_to_incl {A : Type} (n : Z) (l : list A) (x : A) :
  In x (slice_to n l) -> In x l.
Proof.
  unfold slice_to. destruct (0 <=? n); intros H;
    match type of H with In _ (firstn ?k _) =>
      rewrite <- (firstn_skipn k l); apply in_or_app; left; exact H
    end.
Qed.

Lemma rank_In (rs : list result_row) (count : Z) (r : result_row) :
  In r (rank rs count) -> In r rs.
Proof.
  intros H. apply slice_to_incl in H.
  eapply Permutation_in; [apply sort_by_market_cap_perm | exact H].
Qed.




(** Scenario D: of the market caps 5e10 and 2e10 a count of one keeps the
    symbol of 2e10. *)
Example rank_scenario_d : map symbol (rank two_rows 1) = ["B"].
Proof. reflexivity. Qed.

(** ** The threshold filter *)

Lemma truthy_true {A : Type} (l : list A) : truthy l = true <-> l <> [].
Proof. destruct l; simpl; split; congruence. Qed.

Lemma truthy_false {A : Type} (l : list A) : truthy l = false <-> l = [].
Proof. destruct l; simpl; split; congruence. Qed.

Lemma growth_ok_iff (threshold : F64.float) (gs : list F64.float) :
  growth_ok threshold gs = true
  <-> List.length gs = 2%nat /\ all_exceed threshold gs = true.
Proof.
  unfold growth_ok, all_exceed. rewrite !andb_true_iff, Nat.eqb_eq.
  split; [tauto|]. intros [Hl Ha]. repeat split; auto.
  destruct gs; [discriminate|reflexivity].
Qed.

(** C1, as the code has it: a growth sequence counts as available when it is
    not empty, and passes when it has exactly two entries that all strictly
    exceed the threshold.  With both available the symbol goes on iff both
    pass; with one available iff that one passes; with none it is skipped.
    Where each sequence has no entry or two, this is the table over
    "exactly two entries". *)
Theorem growth_gate_table (a : args) (revs opms : list F64.float) :
  (revs <> [] -> opms <> [] ->
   (growth_gate a revs opms = None
    <-> (List.length revs = 2%nat /\ all_exceed (pergro_revenue a) revs = true)
        /\ (List.length opms = 2%nat
            /\ all_exceed (pergro_op_margin a) opms = true)))
  /\ (revs <> [] -> opms = [] ->
      (growth_gate a revs opms = None
       <-> List.length revs = 2%nat
           /\ all_exceed (pergro_revenue a) revs = true))
  /\ (revs = [] -> opms <> [] ->
      (growth_gate a revs opms = None
       <-> List.length opms = 2%nat
           /\ all_exceed (pergro_op_margin a) opms = true))
  /\ (revs = [] -> opms = [] ->
      growth_gate a revs opms = Some NeitherAvailable)
  /\ (List.length revs = 0%nat \/ List.length revs = 2%nat ->
      List.length opms = 0%nat \/ List.length opms = 2%nat ->
      (growth_gate a revs opms = None <-> spec_accept a revs opms = true)).
Proof.
  unfold growth_gate, rev_ok, opm_ok.
  split; [|split; [|split; [|split]]].
  - intros Hr Ho. apply truthy_true in Hr, Ho. rewrite Hr, Ho. simpl.
    rewrite <- !growth_ok_iff.
    destruct (growth_ok (pergro_revenue a) revs),
             (growth_ok (pergro_op_margin a) opms); simpl;
      intuition congruence.
  - intros Hr ->. apply truthy_true in Hr. rewrite Hr. simpl.
    rewrite <- growth_ok_iff.
    destruct (growth_ok (pergro_revenue a) revs); simpl; intuition congruence.
  - intros -> Ho. apply truthy_true in Ho. rewrite Ho. simpl.
    rewrite <- growth_ok_iff.
    destruct (growth_ok (pergro_op_margin a) opms); simpl;
      intuition congruence.
  - intros -> ->. reflexivity.
  - intros Hr Ho. unfold spec_accept, spec_available, growth_ok, all_exceed.
    destruct revs as [|r1 [|r2 [|]]]; simpl in Hr;
      try (exfalso; destruct Hr; discriminate);
      destruct opms as [|o1 [|o2 [|]]]; simpl in Ho;
      try (exfalso; destruct Ho; discriminate); simpl;
      repeat match goal with
             | |- context [F64.gtb ?x ?y] => destruct (F64.gtb x y); simpl
             end; intuition congruence.
Qed.

(** C1 as stated fails where a sequence has one entry: with a negative
    2023Q2 margin the revenue growth has its two entries, both above 15, and
    the margin growth has one; the table over "exactly two entries" accepts
    on revenue alone, the code skips the symbol. *)
Lemma growth_gate_one_margin_entry :
  exists g,
    get_annual_growth one_margin_entry 2 = Ret (Some g)
    /\ List.length (rev_growths g) = 2%nat
    /\ List.length (opm_growths g) = 1%nat
    /\ spec_accept args_a (rev_growths g) (opm_growths g) = true
    /\ threshold_filter args_a g = Ret (Some BothAvailableFailed).
Proof.
  eexists. split; [vm_compute; reflexivity|].
  repeat split; vm_compute; reflexivity.
Qed.

Lemma below_limit_scalar (v : option F64.float) (limit : F64.float) :
  below_limit (option_map Scalar v) limit = Ret (present_below v limit).
Proof. destruct v; reflexivity. Qed.


(** A margin of -20 is below a floor of 10 although its magnitude is not,
    and a margin of -5 is not below a floor of -10. *)
Example negative_margin_is_compared_raw :
  present_below (Some (F64.of_Z (-20))) (F64.of_Z 10) = true
  /\ present_below (Some (F64.abs (F64.of_Z (-20)))) (F64.of_Z 10) = false
  /\ present_below (Some (F64.of_Z (-5))) (F64.of_Z (-10)) = false.
Proof. repeat split. Qed.

(** ** The index *)

Lemma key_eqb_eq (a b : key) : key_eqb a b = true <-> a = b.
Proof.
  destruct a as [a1 a2], b as [b1 b2]. unfold key_eqb; simpl.
  rewrite andb_true_iff, !Z.eqb_eq. split; [intros [-> ->]; reflexivity|].
  intros H; inversion H; auto.
Qed.

Lemma existsb_key_In (k : key) (ks : list key) :
  existsb (key_eqb k) ks = true <-> In k ks.
Proof.
  rewrite existsb_exists. split.
  - intros [k' [Hin Heq]]. apply key_eqb_eq in Heq. now subst.
  - intros Hin. exists k. split; [exact Hin | now apply key_eqb_eq].
Qed.

Lemma is_unique_NoDup (ks : list key) : is_unique ks = true <-> NoDup ks.
Proof.
  induction ks as [|k ks IH]; simpl.
  - split; [constructor | reflexivity].
  - rewrite andb_true_iff, negb_true_iff, IH. split.
    + intros [Hk Hnd]. constructor; [|exact Hnd].
      intros Hin. apply existsb_key_In in Hin. congruence.
    + intros Hnd. inversion Hnd as [|? ? Hk Hnd']; subst. split; [|exact Hnd'].
      destruct (existsb (key_eqb k) ks) eqn:E; [|reflexivity].
      apply existsb_key_In in E. contradiction.
Qed.

Lemma is_unique_perm (ks ks' : list key) :
  Permutation ks ks' -> is_unique ks = true -> is_unique ks' = true.
Proof.
  intros Hp H. apply is_unique_NoDup. apply is_unique_NoDup in H.
  eapply Permutation_NoDup; eauto.
Qed.

Lemma is_unique_sorted (df : frame) :
  is_unique (map key_of df) = true ->
  is_unique (map key_of (sort_values_desc fs_date df)) = true.
Proof.
  apply is_unique_perm, Permutation_map. symmetry. apply stable_sort_perm.
Qed.

(** A lookup either gives a selection or raises [KeyError]. *)
Lemma loc_cases (df : frame) (k : key) :
  (exists s, loc df k = Ret s) \/ loc df k = Raise KeyError.
Proof.
  unfold loc. destruct (filter (has_key k) df) as [|r [|r' rs]]; eauto.
  destruct (is_unique (map key_of df)); eauto.
Qed.

Lemma loc_absent (df : frame) (k : key) :
  existsb (has_key k) df = false -> loc df k = Raise KeyError.
Proof.
  intros H. unfold loc.
  destruct (filter (has_key k) df) as [|r rs] eqn:E; [reflexivity|].
  assert (Hin : In r (filter (has_key k) df)) by (rewrite E; left; reflexivity).
  apply filter_In in Hin. destruct Hin as [Hin Hk].
  assert (existsb (has_key k) df = true) by (apply existsb_exists; eauto).
  congruence.
Qed.

Lemma filter_has_key_unique (df : frame) (k : key) :
  NoDup (map key_of df) -> (List.length (filter (has_key k) df) <= 1)%nat.
Proof.
  induction df as [|r df IH]; simpl; intros Hnd; [lia|].
  inversion Hnd as [|? ? Hr Hnd']; subst.
  destruct (has_key k r) eqn:E; [|auto].
  simpl. destruct (filter (has_key k) df) as [|r' rs] eqn:F; [simpl; lia|].
  exfalso. apply Hr.
  assert (Hin : In r' (filter (has_key k) df)) by (rewrite F; left; reflexivity).
  apply filter_In in Hin. destruct Hin as [Hin Hk].
  apply key_eqb_eq in E, Hk. rewrite E, <- Hk. now apply in_map.
Qed.

(** On an index without repeated keys a lookup is one line. *)
Lemma loc_unique (df : frame) (k : key) (s : selection) :
  is_unique (map key_of df) = true -> loc df k = Ret s -> exists r, s = Line r.
Proof.
  intros Hu. unfold loc.
  pose proof (filter_has_key_unique df k (proj1 (is_unique_NoDup _) Hu)) as Hl.
  destruct (filter (has_key k) df) as [|r [|r' rs]]; simpl in Hl;
    [discriminate | | lia].
  rewrite Hu. intros H; inversion H; eauto.
Qed.

(** The line of a lookup is the only line of the frame with the key. *)
Lemma loc_line (df : frame) (k : key) (r : fs_row) :
  loc df k = Ret (Line r) ->
  forall r', In r' df -> key_of r' = k -> r' = r.
Proof.
  unfold loc. intros H r' Hin Hk.
  assert (Hf : In r' (filter (has_key k) df)).
  { apply filter_In. split; [exact Hin | now apply key_eqb_eq]. }
  destruct (filter (has_key k) df) as [|r0 [|r1 rs]]; try discriminate.
  destruct (is_unique (map key_of df)); inversion H; subst.
  destruct Hf as [->|[]]. reflexivity.
Qed.

(** ** The steps of an anchor *)

Lemma revenue_step_scalar (c p : F64.float) (acc : list F64.float) :
  revenue_step (Scalar c) (Scalar p) acc
  = Ret (acc ++ if F64.notna c && F64.notna p && F64.neqb p (F64.of_Z 0)
                then [growth_pct c p] else []).
Proof.
  unfold revenue_step, bind, scalar.
  destruct (F64.notna c), (F64.notna p), (F64.neqb p (F64.of_Z 0));
    cbn [andb]; rewrite ?app_nil_r; reflexivity.
Qed.

Lemma op_margin_step_scalar (c p : F64.float) (acc : list F64.float) :
  op_margin_step (Scalar c) (Scalar p) acc
  = Ret (acc ++ if F64.notna c && F64.notna p
                   && F64.gtb c (F64.of_Z 0) && F64.gtb p (F64.of_Z 0)
                then [growth_pct c p] else []).
Proof.
  unfold op_margin_step, bind, scalar.
  destruct (F64.notna c), (F64.notna p), (F64.gtb c (F64.of_Z 0)),
    (F64.gtb p (F64.of_Z 0));
    cbn [andb]; rewrite ?app_nil_r; reflexivity.
Qed.

Lemma revenue_step_raise (c p : cell) (acc : list F64.float) (e : exn) :
  revenue_step c p acc = Raise e -> e = ValueError.
Proof.
  unfold revenue_step, bind, scalar. destruct c as [x|xs]; [|congruence].
  destruct (F64.notna x); [|discriminate].
  destruct p as [y|ys]; [|congruence].
  destruct (F64.notna y && F64.neqb y (F64.of_Z 0)); discriminate.
Qed.

Lemma op_margin_step_raise (c p : cell) (acc : list F64.float) (e : exn) :
  op_margin_step c p acc = Raise e -> e = ValueError.
Proof.
  unfold op_margin_step, bind, scalar. destruct c as [x|xs]; [|congruence].
  destruct (F64.notna x); [|discriminate].
  destruct p as [y|ys]; [|congruence].
  destruct (F64.notna y && F64.gtb x (F64.of_Z 0) && F64.gtb y (F64.of_Z 0));
    discriminate.
Qed.

(** A revenue step that returns had a scalar for the anchor. *)
Lemma revenue_step_ret (c p : cell) (acc acc' : list F64.float) :
  revenue_step c p acc = Ret acc' -> exists x, c = Scalar x.
Proof.
  unfold revenue_step, bind, scalar. destruct c as [x|xs]; [eauto|discriminate].
Qed.

(** ** One anchor *)

Lemma anchor_body_ret (df rows : frame) (i : nat) (st st' : growth) :
  anchor_body df rows i st = Ret st' ->
  exists row curr prev,
    iloc rows i = Ret row
    /\ loc df (year row, quarter row) = Ret curr
    /\ loc df (year row - 1, quarter row) = Ret prev
    /\ revenue_step (column revenue curr) (column revenue prev)
         (rev_growths st) = Ret (rev_growths st')
    /\ op_margin_step (column op_margin curr) (column op_margin prev)
         (opm_growths st) = Ret (opm_growths st')
    /\ recent st' = (if Nat.eqb i 0
                     then mkRecent (Some (column revenue curr))
                                   (Some (column op_margin curr))
                     else recent st).
Proof.
  unfold anchor_body. intros H.
  apply bind_ret in H. destruct H as [row [Hrow H]].
  apply bind_ret in H. destruct H as [curr [Hcurr H]].
  apply bind_ret in H. destruct H as [prev [Hprev H]].
  apply bind_ret in H. destruct H as [revs [Hrevs H]].
  apply bind_ret in H. destruct H as [opms [Hopms H]].
  inversion H; subst; clear H. exists row, curr, prev. simpl. auto 10.
Qed.

Lemma anchor_body_prior_absent (df rows : frame) (i : nat) (st : growth)
  (row : fs_row) :
  iloc rows i = Ret row ->
  prior_year_absent df row = true ->
  anchor_body df rows i st = Raise KeyError.
Proof.
  intros Hrow Habs. unfold anchor_body. rewrite Hrow. cbn [bind].
  destruct (loc_cases df (year row, quarter row)) as [[s Hs]|Hk];
    [rewrite Hs | rewrite Hk]; cbn [bind]; [|reflexivity].
  rewrite (loc_absent df (year row - 1, quarter row)); [reflexivity|].
  unfold prior_year_absent in Habs. now apply negb_true_iff in Habs.
Qed.

Lemma anchor_body_raise (df rows : frame) (i : nat) (st : growth)
  (row : fs_row) (e : exn) :
  iloc rows i = Ret row ->
  anchor_body df rows i st = Raise e ->
  e = KeyError \/ e = ValueError.
Proof.
  intros Hrow. unfold anchor_body. rewrite Hrow. cbn [bind].
  destruct (loc_cases df (year row, quarter row)) as [[c Hc]|Hk];
    [rewrite Hc | rewrite Hk]; cbn [bind]; [|intros H; inversion H; auto].
  destruct (loc_cases df (year row - 1, quarter row)) as [[p Hp]|Hk];
    [rewrite Hp | rewrite Hk]; cbn [bind]; [|intros H; inversion H; auto].
  destruct (revenue_step _ _ _) as [revs|e1] eqn:E1; cbn [bind].
  - destruct (op_margin_step _ _ _) as [opms|e2] eqn:E2; cbn [bind];
      [discriminate|].
    intros H; inversion H; subst. right. eapply op_margin_step_raise, E2.
  - intros H; inversion H; subst. right. eapply revenue_step_raise, E1.
Qed.

Lemma anchor_body_unique_raise (df rows : frame) (i : nat) (st : growth)
  (row : fs_row) (e : exn) :
  is_unique (map key_of df) = true ->
  iloc rows i = Ret row ->
  anchor_body df rows i st = Raise e ->
  e = KeyError.
Proof.
  intros Hu Hrow. unfold anchor_body. rewrite Hrow. cbn [bind].
  destruct (loc_cases df (year row, quarter row)) as [[c Hc]|Hk];
    [rewrite Hc | rewrite Hk]; cbn [bind]; [|intros H; inversion H; auto].
  destruct (loc_cases df (year row - 1, quarter row)) as [[p Hp]|Hk];
    [rewrite Hp | rewrite Hk]; cbn [bind]; [|intros H; inversion H; auto].
  destruct (loc_unique _ _ _ Hu Hc) as [rc ->].
  destruct (loc_unique _ _ _ Hu Hp) as [rp ->].
  cbn [column]. rewrite revenue_step_scalar, op_margin_step_scalar.
  cbn [bind]. discriminate.
Qed.

(** ** get_annual_growth *)

Lemma sorted_two (df : frame) :
  (2 <= List.length df)%nat ->
  exists r0 r1 rest, sort_values_desc fs_date df = r0 :: r1 :: rest.
Proof.
  intros Hl. unfold sort_values_desc.
  pose proof (stable_sort_length
                (fun x y => date_ltb (fs_date y) (fs_date x)) df) as E.
  destruct (stable_sort _ df) as [|r0 [|r1 rest]]; simpl in E; try lia.
  eauto.
Qed.

Lemma get_annual_growth_two (df : frame) (r0 r1 : fs_row) (rest : frame) :
  sort_values_desc fs_date df = r0 :: r1 :: rest ->
  get_annual_growth df 2
  = anchor_loop (r0 :: r1 :: rest) [r0; r1] [0%nat; 1%nat] no_growth.
Proof. intros H. unfold get_annual_growth. rewrite H. reflexivity. Qed.

Lemma get_annual_growth_short (df : frame) :
  (List.length df < 2)%nat -> get_annual_growth df 2 = Ret None.
Proof.
  intros Hl. unfold get_annual_growth, sort_values_desc.
  rewrite stable_sort_length.
  destruct (Nat.ltb_spec (List.length df) 2); [reflexivity | lia].
Qed.

Lemma prior_year_absent_sorted (df : frame) (r : fs_row) :
  prior_year_absent (sort_values_desc fs_date df) r = prior_year_absent df r.
Proof.
  unfold prior_year_absent. f_equal.
  apply eq_true_iff_eq. rewrite !existsb_exists.
  split; intros [x [Hin Hk]]; exists x; split; auto;
    apply (stable_sort_In (fun x y => date_ltb (fs_date y) (fs_date x)));
    exact Hin.
Qed.

(** The two anchors of a frame whose prior-year key is missing for one of
    them: the loop ends in [KeyError], unless a repeated key raised first. *)
Lemma anchor_loop_prior_absent (df : frame) (r0 r1 : fs_row) :
  prior_year_absent df r0 || prior_year_absent df r1 = true ->
  (anchor_loop df [r0; r1] [0%nat; 1%nat] no_growth = Ret None
   \/ anchor_loop df [r0; r1] [0%nat; 1%nat] no_growth = Raise ValueError)
  /\ (is_unique (map key_of df) = true ->
      anchor_loop df [r0; r1] [0%nat; 1%nat] no_growth = Ret None).
Proof.
  intros Habs. cbn [anchor_loop].
  assert (H0 : iloc [r0; r1] 0 = Ret r0) by reflexivity.
  assert (H1 : iloc [r0; r1] 1 = Ret r1) by reflexivity.
  destruct (anchor_body df [r0; r1] 0 no_growth) as [st1|e0] eqn:E0.
  - assert (Hr0 : prior_year_absent df r0 = false).
    { destruct (prior_year_absent df r0) eqn:A; [|reflexivity].
      rewrite (anchor_body_prior_absent _ _ _ _ _ H0 A) in E0. discriminate. }
    rewrite Hr0 in Habs. cbn [orb] in Habs.
    rewrite (anchor_body_prior_absent _ _ _ _ _ H1 Habs). auto.
  - split.
    + destruct (anchor_body_raise _ _ _ _ _ _ H0 E0) as [->| ->]; auto.
    + intros Hu. now rewrite (anchor_body_unique_raise _ _ _ _ _ _ Hu H0 E0).
Qed.

(** C2, as the code has it: with at least two records and the prior-year
    key of one of the two anchors missing, no growth result is returned, and
    on records with pairwise distinct (year, quarter) keys the answer is
    NoData.  (On repeated keys a lookup may end the computation with a
    [ValueError] before the missing key is met.) *)
Theorem prior_year_absent_no_growth (df : frame) :
  (2 <= List.length df)%nat ->
  existsb (prior_year_absent df) (anchors df) = true ->
  (get_annual_growth df 2 = Ret None
   \/ get_annual_growth df 2 = Raise ValueError)
  /\ (is_unique (map key_of df) = true -> get_annual_growth df 2 = Ret None).
Proof.
  intros Hl Habs.
  destruct (sorted_two df Hl) as [r0 [r1 [rest Hs]]].
  rewrite (get_annual_growth_two df r0 r1 rest Hs).
  unfold anchors in Habs. rewrite Hs in Habs. cbn [firstn existsb] in Habs.
  rewrite orb_false_r in Habs.
  rewrite <- !(prior_year_absent_sorted df), Hs in Habs.
  destruct (anchor_loop_prior_absent _ r0 r1 Habs) as [Hany Huniq].
  split; [exact Hany|].
  intros Hu. apply Huniq. rewrite <- Hs. apply is_unique_sorted, Hu.
Qed.

Lemma prior_year_absent_no_growth_witness :
  (get_annual_growth no_prior_q1 2 = Ret None
   \/ get_annual_growth no_prior_q1 2 = Raise ValueError)
  /\ (is_unique (map key_of no_prior_q1) = true ->
      get_annual_growth no_prior_q1 2 = Ret None).
Proof.
  apply (prior_year_absent_no_growth no_prior_q1); [simpl; lia | reflexivity].
Defined.

(** C2 as stated fails on repeated keys: with 2023Q2 filed twice and 2023Q1
    missing, the prior-year key of the second anchor (2024Q1) is absent, and
    the computation does not return NoData: the lookup of 2023Q2 is a slice,
    and its truth test raises [ValueError]. *)
Lemma repeated_prior_raises :
  (2 <= List.length repeated_prior)%nat
  /\ existsb (prior_year_absent repeated_prior) (anchors repeated_prior) = true
  /\ get_annual_growth repeated_prior 2 = Raise ValueError.
Proof. repeat split. simpl; lia. Qed.

(** On an index without repeated keys a line is found under its key. *)
Lemma loc_found (df : frame) (k : key) (r : fs_row) :
  is_unique (map key_of df) = true ->
  In r df -> key_of r = k -> loc df k = Ret (Line r).
Proof.
  intros Hu Hin Hk.
  destruct (loc_cases df k) as [[s Hs]|Hr].
  - destruct (loc_unique _ _ _ Hu Hs) as [r' ->].
    now rewrite (loc_line _ _ _ Hs r Hin Hk).
  - exfalso. unfold loc in Hr.
    assert (Hf : In r (filter (has_key k) df)).
    { apply filter_In. split; [exact Hin | now apply key_eqb_eq]. }
    destruct (filter (has_key k) df) as [|r1 [|r2 rs]]; [destruct Hf| |];
      try discriminate.
    destruct (is_unique (map key_of df)); discriminate.
Qed.

(** The whole computation on distinct keys: when both anchors have their
    prior-year line, the result holds the entries of the first anchor, then
    those of the second, and the recent values of the first. *)
Theorem get_annual_growth_distinct_keys (df : frame) (r0 r1 p0 p1 : fs_row)
  (rest : frame) :
  is_unique (map key_of df) = true ->
  sort_values_desc fs_date df = r0 :: r1 :: rest ->
  In p0 df -> key_of p0 = (year r0 - 1, quarter r0) ->
  In p1 df -> key_of p1 = (year r1 - 1, quarter r1) ->
  get_annual_growth df 2
  = Ret (Some (mkGrowth
                 (revenue_entry r0 p0 ++ revenue_entry r1 p1)
                 (op_margin_entry r0 p0 ++ op_margin_entry r1 p1)
                 (mkRecent (Some (Scalar (revenue r0)))
                           (Some (Scalar (op_margin r0)))))).
Proof.
  intros Hu Hs Hp0 Hk0 Hp1 Hk1.
  rewrite (get_annual_growth_two df r0 r1 rest Hs).
  assert (Hu' : is_unique (map key_of (r0 :: r1 :: rest)) = true).
  { rewrite <- Hs. apply is_unique_sorted, Hu. }
  assert (Hin : forall r, In r df -> In r (r0 :: r1 :: rest)).
  { intros r Hr. rewrite <- Hs.
    apply (stable_sort_In (fun x y => date_ltb (fs_date y) (fs_date x))).
    exact Hr. }
  cbn [anchor_loop]. unfold anchor_body. cbn [iloc nth_error bind].
  rewrite (loc_found _ (year r0, quarter r0) r0 Hu' (or_introl eq_refl)
             eq_refl).
  rewrite (loc_found _ _ p0 Hu' (Hin _ Hp0) Hk0).
  cbn [bind column]. rewrite revenue_step_scalar, op_margin_step_scalar.
  cbn [bind Nat.eqb rev_growths opm_growths recent app].
  rewrite (loc_found _ (year r1, quarter r1) r1 Hu'
             (or_intror (or_introl eq_refl)) eq_refl).
  rewrite (loc_found _ _ p1 Hu' (Hin _ Hp1) Hk1).
  cbn [bind column]. rewrite revenue_step_scalar, op_margin_step_scalar.
  reflexivity.
Qed.

Lemma get_annual_growth_distinct_keys_witness :
  get_annual_growth scenario_a 2
  = Ret (Some (mkGrowth
                 (revenue_entry (fs 2024 6 30 120 20) (fs 2023 6 30 100 15)
                  ++ revenue_entry (fs 2024 3 31 110 18) (fs 2023 3 31 90 10))
                 (op_margin_entry (fs 2024 6 30 120 20) (fs 2023 6 30 100 15)
                  ++ op_margin_entry (fs 2024 3 31 110 18)
                       (fs 2023 3 31 90 10))
                 (mkRecent (Some (Scalar (F64.of_Z 120)))
                           (Some (Scalar (F64.of_Z 20)))))).
Proof.
  apply (get_annual_growth_distinct_keys scenario_a
           (fs 2024 6 30 120 20) (fs 2024 3 31 110 18)
           (fs 2023 6 30 100 15) (fs 2023 3 31 90 10)
           [fs 2023 6 30 100 15; fs 2023 3 31 90 10]);
    try reflexivity; simpl; auto.
Defined.

(** The recent values of a result are those of the latest line. *)
Lemma recent_is_first_anchor (df : frame) (g : growth) (r0 : fs_row) :
  get_annual_growth df 2 = Ret (Some g) ->
  hd_error (sort_values_desc fs_date df) = Some r0 ->
  recent g = mkRecent (Some (Scalar (revenue r0)))
                      (Some (Scalar (op_margin r0))).
Proof.
  intros Hg Hhd.
  destruct (le_lt_dec 2 (List.length df)) as [Hl|Hl];
    [|rewrite (get_annual_growth_short df Hl) in Hg; discriminate].
  destruct (sorted_two df Hl) as [r0' [r1 [rest Hs]]].
  rewrite Hs in Hhd. inversion Hhd; subst r0'; clear Hhd.
  rewrite (get_annual_growth_two df r0 r1 rest Hs) in Hg.
  cbn [anchor_loop] in Hg.
  destruct (anchor_body _ [r0; r1] 0 no_growth) as [st1|e] eqn:E0;
    [|destruct e; discriminate].
  destruct (anchor_body _ [r0; r1] 1 st1) as [st2|e] eqn:E1;
    [|destruct e; discriminate].
  inversion Hg; subst st2; clear Hg.
  apply anchor_body_ret in E0, E1.
  destruct E0 as (row & curr & prev & Hrow & Hc & _ & Hrev & _ & Hrec).
  destruct E1 as (row1 & curr1 & prev1 & _ & _ & _ & _ & _ & Hrec1).
  inversion Hrow; subst row; clear Hrow.
  cbn [Nat.eqb] in Hrec, Hrec1. rewrite Hrec1, Hrec.
  apply revenue_step_ret in Hrev. destruct Hrev as [x Hx].
  destruct curr as [c|cs]; [|discriminate].
  assert (r0 = c) as <-.
  { apply (loc_line _ _ _ Hc); [left; reflexivity | reflexivity]. }
  reflexivity.
Qed.

(** C3: a symbol with fewer than two records has no growth result and adds
    nothing to the results, whatever the arguments; with a market-cap file
    that loads the reason is the insufficient data. *)
Theorem too_few_records (a : args) (e : entry) (df : frame) (st : run_state) :
  e_fs e = Ret df ->
  (List.length df < 2)%nat ->
  get_annual_growth df 2 = Ret None
  /\ accepted_row a e = []
  /\ (forall ms, e_ms e = Some (Ret ms) ->
      entry_verdict a e = Skipped InsufficientData)
  /\ exists st', loop_body a e st = Ret st' /\ results st' = results st.
Proof.
  intros Hfs Hl. pose proof (get_annual_growth_short df Hl) as Hg.
  assert (Hv : exists why, entry_verdict a e = Skipped why).
  { unfold entry_verdict, process_symbol. rewrite Hfs.
    destruct (e_ms e) as [[ms|ex]|]; cbn [bind]; eauto.
    rewrite Hg. cbn [bind]. eauto. }
  split; [exact Hg|]. split; [|split].
  - unfold accepted_row. destruct Hv as [why ->]. reflexivity.
  - intros ms Hms. unfold entry_verdict, process_symbol.
    rewrite Hfs, Hms. cbn [bind]. rewrite Hg. reflexivity.
  - unfold loop_body, process_symbol. rewrite Hfs.
    destruct (e_ms e) as [[ms|ex]|]; cbn [bind try_except]; eauto.
    rewrite Hg. cbn [bind try_except record]. eauto.
Qed.

Lemma too_few_records_witness :
  get_annual_growth [fs 2024 6 30 120 20] 2 = Ret None
  /\ accepted_row args_a lonely = []
  /\ (forall ms, e_ms lonely = Some (Ret ms) ->
      entry_verdict args_a lonely = Skipped InsufficientData)
  /\ exists st', loop_body args_a lonely (mkRun [] []) = Ret st'
                 /\ results st' = results (mkRun [] []).
Proof.
  apply (too_few_records args_a lonely [fs 2024 6 30 120 20] (mkRun [] []));
    [reflexivity | simpl; lia].
Defined.

(** C10: when the revenue of the latest quarter is NaN the revenue floor
    never skips the symbol, whatever the limit, and likewise the margin
    floor for a NaN margin: the filter goes on to the other floor and to
    the growth sequences. *)
Theorem nan_recent_value_passes_floors (a : args) (df : frame) (g : growth)
  (r0 : fs_row) :
  get_annual_growth df 2 = Ret (Some g) ->
  hd_error (sort_values_desc fs_date df) = Some r0 ->
  (F64.is_nan (revenue r0) = true ->
   threshold_filter a g
   = Ret (if F64.ltb (op_margin r0) (op_margin_limit a)
          then Some RecentOpMarginBelowLimit
          else growth_gate a (rev_growths g) (opm_growths g)))
  /\ (F64.is_nan (op_margin r0) = true ->
      threshold_filter a g
      = Ret (if F64.ltb (revenue r0) (revenue_limit a)
             then Some RecentRevenueBelowLimit
             else growth_gate a (rev_growths g) (opm_growths g))).
Proof.
  intros Hg Hhd. pose proof (recent_is_first_anchor df g r0 Hg Hhd) as Hrec.
  destruct g as [revs opms rv]. cbn [recent rev_growths opm_growths] in *.
  subst rv.
  unfold threshold_filter. cbn [recent rv_revenue rv_op_margin].
  rewrite (below_limit_scalar (Some (revenue r0))).
  rewrite (below_limit_scalar (Some (op_margin r0))).
  cbn [bind present_below].
  split; intros Hnan; apply is_nan_eq in Hnan; rewrite Hnan, ltb_nan_l.
  - cbn [bind]. destruct (F64.ltb (op_margin r0) (op_margin_limit a));
      reflexivity.
  - destruct (F64.ltb (revenue r0) (revenue_limit a)); reflexivity.
Qed.

Lemma nan_recent_value_passes_floors_witness :
  (F64.is_nan F64.nan = true ->
   threshold_filter args_default revenue_missing_growth
   = Ret (if F64.ltb (F64.of_Z 20) (op_margin_limit args_default)
          then Some RecentOpMarginBelowLimit
          else growth_gate args_default
                 (rev_growths revenue_missing_growth)
                 (opm_growths revenue_missing_growth)))
  /\ (F64.is_nan (F64.of_Z 20) = true ->
      threshold_filter args_default revenue_missing_growth
      = Ret (if F64.ltb F64.nan (revenue_limit args_default)
             then Some RecentRevenueBelowLimit
             else growth_gate args_default
                    (rev_growths revenue_missing_growth)
                    (opm_growths revenue_missing_growth))).
Proof.
  apply (nan_recent_value_passes_floors args_default revenue_missing
           revenue_missing_growth
           (mkFs (mkDate 2024 6 30) F64.nan (F64.of_Z 20)));
    reflexivity.
Defined.

(** With no revenue at all and the default revenue floor of 1e11, the symbol
    passes the filter on its margins. *)
Example revenue_missing_passes :
  get_annual_growth revenue_missing 2 = Ret (Some revenue_missing_growth)
  /\ threshold_filter args_default revenue_missing_growth = Ret None.
Proof. split; reflexivity. Qed.

(** Scenario C: with negative prior-year margins the margin growth is empty
    and the symbol is accepted on its revenue growth alone. *)
Example scenario_c_revenue_alone :
  exists g,
    get_annual_growth scenario_c 2 = Ret (Some g)
    /\ map fmt (rev_growths g) = ["20.00"; "22.22"]
    /\ opm_growths g = []
    /\ threshold_filter args_a g = Ret None.
Proof. eexists. repeat split; vm_compute; reflexivity. Qed.

(** ** Growth on the columns as they are read *)


(** On a float64 column the growth is the binary64 expression. *)
Lemma growth_pct_float64 (c p : F64.float) :
  Csv.growth_pct (Csv.Float64 c) (Csv.Float64 p) = growth_pct c p.
Proof. reflexivity. Qed.












(** ** Scenarios A and B *)

(** C7: on the four quarters of scenario A the revenue growth prints as
    20.00 and 22.22 and the margin growth as 33.33 and 80.00; with the
    thresholds 15 and 20 all entries exceed them and the symbol is accepted;
    with the margin threshold 50 both metrics are available, the margin
    entry 33.33 fails and the symbol is skipped. *)
Theorem scenario_a_accepted_b_rejected :
  exists g,
    get_annual_growth scenario_a 2 = Ret (Some g)
    /\ map fmt (rev_growths g) = ["20.00"; "22.22"]
    /\ map fmt (opm_growths g) = ["33.33"; "80.00"]
    /\ all_exceed (pergro_revenue args_a) (rev_growths g) = true
    /\ all_exceed (pergro_op_margin args_a) (opm_growths g) = true
    /\ threshold_filter args_a g = Ret None
    /\ (exists r, process_symbol args_a "A" (Ret scenario_a) (Ret caps_a)
                  = Ret (Accepted r))
    /\ truthy (rev_growths g) && truthy (opm_growths g) = true
    /\ spec_available (rev_growths g) && spec_available (opm_growths g) = true
    /\ map (fun x => F64.gtb x (pergro_op_margin args_b)) (opm_growths g)
       = [false; true]
    /\ threshold_filter args_b g = Ret (Some BothAvailableFailed)
    /\ process_symbol args_b "A" (Ret scenario_a) (Ret caps_a)
       = Ret (Skipped BothAvailableFailed).
Proof.
  eexists. split; [vm_compute; reflexivity|].
  repeat split; try (vm_compute; reflexivity).
  eexists. vm_compute. reflexivity.
Qed.

(** ** The loop over the symbols *)

Lemma loop_body_verdict (a : args) (e : entry) (st : run_state) :
  loop_body a e st = Ret (record st (e_symbol e) (entry_verdict a e)).
Proof.
  unfold loop_body, entry_verdict.
  destruct (e_ms e) as [ms_file|]; [|reflexivity].
  destruct (process_symbol a (e_symbol e) (e_fs e) ms_file); reflexivity.
Qed.

Lemma record_results (a : args) (e : entry) (st : run_state) :
  results (record st (e_symbol e) (entry_verdict a e))
  = results st ++ accepted_row a e.
Proof.
  unfold accepted_row.
  destruct (entry_verdict a e); simpl; [reflexivity | now rewrite app_nil_r].
Qed.

Lemma record_skipped (a : args) (e : entry) (st : run_state) :
  skipped (record st (e_symbol e) (entry_verdict a e))
  = skipped st ++ skipped_line a e.
Proof.
  unfold skipped_line.
  destruct (entry_verdict a e); simpl; [now rewrite app_nil_r | reflexivity].
Qed.

(** The loop never raises: every entry adds its line to the results or to
    the skipped symbols, and the loop goes on with the next entry. *)
Lemma main_loop_runs (a : args) (es : list entry) (st : run_state) :
  main_loop a es st
  = Ret (mkRun (results st ++ flat_map (accepted_row a) es)
               (skipped st ++ flat_map (skipped_line a) es)).
Proof.
  revert st. induction es as [|e es IH]; intros st; cbn [main_loop flat_map].
  - rewrite !app_nil_r. destruct st; reflexivity.
  - rewrite loop_body_verdict. cbn [bind]. rewrite IH.
    rewrite record_results, record_skipped, <- !app_assoc. reflexivity.
Qed.

(** An accepted line went through every step. *)
Lemma process_symbol_accepted (a : args) (sym : String.string)
  (fs_file : res frame) (ms_file : res (list ms_row)) (r : result_row) :
  process_symbol a sym fs_file ms_file = Ret (Accepted r) ->
  exists fs_df ms_df g cap,
    fs_file = Ret fs_df
    /\ ms_file = Ret ms_df
    /\ get_annual_growth fs_df 2 = Ret (Some g)
    /\ threshold_filter a g = Ret None
    /\ get_latest_market_cap ms_df = Ret cap
    /\ r = mkResult sym
             (growth_or_nan (rev_growths g) 0) (growth_or_nan (rev_growths g) 1)
             (growth_or_nan (opm_growths g) 0) (growth_or_nan (opm_growths g) 1)
             cap.
Proof.
  unfold process_symbol. intros H.
  apply bind_ret in H. destruct H as [fs_df [Hfs H]].
  apply bind_ret in H. destruct H as [ms_df [Hms H]].
  apply bind_ret in H. destruct H as [[g|] [Hg H]]; [|discriminate].
  apply bind_ret in H. destruct H as [[why|] [Hwhy H]]; [discriminate|].
  apply bind_ret in H. destruct H as [cap [Hcap H]].
  inversion H; subst. exists fs_df, ms_df, g, cap. auto 10.
Qed.

Lemma threshold_filter_reasons (a : args) (g : growth) (why : skip_reason) :
  threshold_filter a g = Ret (Some why) ->
  In why [RecentRevenueBelowLimit; RecentOpMarginBelowLimit;
          BothAvailableFailed; OnlyRevenueFailed; OnlyOpMarginFailed;
          NeitherAvailable].
Proof.
  unfold threshold_filter. intros H.
  apply bind_ret in H. destruct H as [[|] [_ H]];
    [inversion H; simpl; auto|].
  apply bind_ret in H. destruct H as [[|] [_ H]];
    [inversion H; simpl; auto|].
  inversion H as [Hg]. unfold growth_gate in Hg.
  repeat match type of Hg with
         | (if ?b then _ else _) = _ => destruct b
         end; inversion Hg; simpl; auto 10.
Qed.

(** C8, as the code has it: a symbol without a market-cap file is skipped
    before anything is read or computed.  Otherwise both files are read
    first, and a file that does not load is a processing error whatever the
    other file and the growth would give.  Then the growth comes (NoData
    skips with the insufficient data), then the threshold filter (a failure
    skips with its own reason), and only a symbol that passed both has its
    latest market cap taken from the frame read at the start.  When the
    market-cap file exists and loads, this is the order of the
    specification. *)
Theorem pipeline_order (a : args) (e : entry) :
  (e_ms e = None -> entry_verdict a e = Skipped MarketCapNotFound)
  /\ (forall ms_file ex,
        e_ms e = Some ms_file -> e_fs e = Raise ex ->
        entry_verdict a e = Skipped (ProcessingError ex))
  /\ (forall fs_df ex,
        e_fs e = Ret fs_df -> e_ms e = Some (Raise ex) ->
        entry_verdict a e = Skipped (ProcessingError ex))
  /\ (forall fs_df ms_df ex,
        e_fs e = Ret fs_df -> e_ms e = Some (Ret ms_df) ->
        get_annual_growth fs_df 2 = Raise ex ->
        entry_verdict a e = Skipped (ProcessingError ex))
  /\ (forall fs_df ms_df,
        e_fs e = Ret fs_df -> e_ms e = Some (Ret ms_df) ->
        get_annual_growth fs_df 2 = Ret None ->
        entry_verdict a e = Skipped InsufficientData)
  /\ (forall fs_df ms_df g ex,
        e_fs e = Ret fs_df -> e_ms e = Some (Ret ms_df) ->
        get_annual_growth fs_df 2 = Ret (Some g) ->
        threshold_filter a g = Raise ex ->
        entry_verdict a e = Skipped (ProcessingError ex))
  /\ (forall fs_df ms_df g why,
        e_fs e = Ret fs_df -> e_ms e = Some (Ret ms_df) ->
        get_annual_growth fs_df 2 = Ret (Some g) ->
        threshold_filter a g = Ret (Some why) ->
        entry_verdict a e = Skipped why
        /\ In why [RecentRevenueBelowLimit; RecentOpMarginBelowLimit;
                   BothAvailableFailed; OnlyRevenueFailed;
                   OnlyOpMarginFailed; NeitherAvailable])
  /\ (forall fs_df ms_df g,
        e_fs e = Ret fs_df -> e_ms e = Some (Ret ms_df) ->
        get_annual_growth fs_df 2 = Ret (Some g) ->
        threshold_filter a g = Ret None ->
        entry_verdict a e
        = match get_latest_market_cap ms_df with
          | Ret cap =>
              Accepted
                (mkResult (e_symbol e)
                   (growth_or_nan (rev_growths g) 0)
                   (growth_or_nan (rev_growths g) 1)
                   (growth_or_nan (opm_growths g) 0)
                   (growth_or_nan (opm_growths g) 1)
                   cap)
          | Raise ex => Skipped (ProcessingError ex)
          end)
  /\ (forall ms_df,
        e_ms e = Some (Ret ms_df) ->
        entry_verdict a e = spec_order_verdict a e)
  /\ (forall st,
        loop_body a e st = Ret (record st (e_symbol e) (entry_verdict a e))).
Proof.
  unfold entry_verdict, spec_order_verdict, process_symbol.
  split; [|split; [|split; [|split; [|split; [|split; [|split; [|split;
    [|split]]]]]]]].
  - intros ->. reflexivity.
  - intros ms_file ex -> ->. reflexivity.
  - intros fs_df ex -> ->. reflexivity.
  - intros fs_df ms_df ex -> -> Hg. cbn [bind]. rewrite Hg. reflexivity.
  - intros fs_df ms_df -> -> Hg. cbn [bind]. rewrite Hg. reflexivity.
  - intros fs_df ms_df g ex -> -> Hg Hwhy. cbn [bind].
    rewrite Hg. cbn [bind]. rewrite Hwhy. reflexivity.
  - intros fs_df ms_df g why -> -> Hg Hwhy. cbn [bind].
    rewrite Hg. cbn [bind]. rewrite Hwhy. split; [reflexivity|].
    eapply threshold_filter_reasons, Hwhy.
  - intros fs_df ms_df g -> -> Hg Hwhy. cbn [bind].
    rewrite Hg. cbn [bind]. rewrite Hwhy. cbn [bind].
    destruct (get_latest_market_cap ms_df); reflexivity.
  - intros ms_df ->. destruct (e_fs e) as [fs_df|ex]; cbn [bind];
      [|reflexivity].
    destruct (get_annual_growth fs_df 2) as [[g|]|ex]; reflexivity.
  - intros st. apply loop_body_verdict.
Qed.

(** A market-cap file that does not load is a processing error even for a
    symbol with a single record, whose growth would be NoData: both files
    are read before the growth is computed. *)
Example unreadable_market_cap_first :
  entry_verdict args_a
    (mkEntry "A000001" (Ret [fs 2024 6 30 120 20]) (Some (Raise ReadError)))
  = Skipped (ProcessingError ReadError)
  /\ get_annual_growth [fs 2024 6 30 120 20] 2 = Ret None.
Proof. split; reflexivity. Qed.

(** C8 as stated fails for a symbol without a market-cap file: with one
    record and no such file the code skips it for the missing market cap,
    where growth first would skip it for the insufficient data. *)
Lemma market_cap_checked_first :
  entry_verdict args_a lonely = Skipped MarketCapNotFound
  /\ spec_order_verdict args_a lonely = Skipped InsufficientData
  /\ loop_body args_a lonely (mkRun [] [])
     = Ret (mkRun [] [("A000001", MarketCapNotFound)]).
Proof. repeat split. Qed.

(** ** The run on the columns as they are read *)

Lemma csv_loop_body_verdict (a : args) (e : Csv.entry) (st : Csv.run_state) :
  Csv.loop_body a e st
  = Ret (Csv.record st (Csv.e_symbol e) (Csv.entry_verdict a e)).
Proof.
  unfold Csv.loop_body, Csv.entry_verdict.
  destruct (Csv.e_ms e) as [ms_file|]; [|reflexivity].
  destruct (Csv.process_symbol a (Csv.e_symbol e) (Csv.e_fs e) ms_file);
    reflexivity.
Qed.

Lemma csv_record_results (a : args) (e : Csv.entry) (st : Csv.run_state) :
  Csv.results (Csv.record st (Csv.e_symbol e) (Csv.entry_verdict a e))
  = Csv.results st ++ Csv.accepted_row a e.
Proof.
  unfold Csv.accepted_row.
  destruct (Csv.entry_verdict a e); simpl;
    [reflexivity | now rewrite app_nil_r].
Qed.

Lemma csv_record_skipped (a : args) (e : Csv.entry) (st : Csv.run_state) :
  Csv.skipped (Csv.record st (Csv.e_symbol e) (Csv.entry_verdict a e))
  = Csv.skipped st ++ Csv.skipped_line a e.
Proof.
  unfold Csv.skipped_line.
  destruct (Csv.entry_verdict a e); simpl;
    [now rewrite app_nil_r | reflexivity].
Qed.

(** The loop never raises, whatever the files hold: every entry adds its
    line to the results or to the skipped symbols. *)
Lemma csv_main_loop_runs (a : args) (es : list Csv.entry)
  (st : Csv.run_state) :
  Csv.main_loop a es st
  = Ret (Csv.mkRun (Csv.results st ++ flat_map (Csv.accepted_row a) es)
                   (Csv.skipped st ++ flat_map (Csv.skipped_line a) es)).
Proof.
  revert st. induction es as [|e es IH]; intros st;
    cbn [Csv.main_loop flat_map].
  - rewrite !app_nil_r. destruct st; reflexivity.
  - rewrite csv_loop_body_verdict. cbn [bind]. rewrite IH.
    rewrite csv_record_results, csv_record_skipped, <- !app_assoc.
    reflexivity.
Qed.

Lemma csv_accepted_or_skipped (a : args) (es : list Csv.entry) :
  (List.length (flat_map (Csv.accepted_row a) es)
   + List.length (flat_map (Csv.skipped_line a) es))%nat
  = List.length es.
Proof.
  induction es as [|e es IH]; simpl; [reflexivity|].
  rewrite !length_app.
  assert (List.length (Csv.accepted_row a e)
          + List.length (Csv.skipped_line a e) = 1)%nat.
  { unfold Csv.accepted_row, Csv.skipped_line.
    destruct (Csv.entry_verdict a e); reflexivity. }
  lia.
Qed.

Lemma csv_accepted_row_In (a : args) (es : list Csv.entry)
  (r : Csv.result_row) :
  In r (flat_map (Csv.accepted_row a) es) ->
  exists e, In e es /\ Csv.entry_verdict a e = Csv.Accepted r.
Proof.
  intros Hin. apply in_flat_map in Hin. destruct Hin as [e [He Hin]].
  unfold Csv.accepted_row in Hin.
  destruct (Csv.entry_verdict a e) as [r'|why] eqn:Hv; [|destruct Hin].
  destruct Hin as [<-|[]]. eauto.
Qed.

Lemma csv_skipped_line_In (a : args) (es : list Csv.entry)
  (sym : String.string) (why : skip_reason) :
  In (sym, why) (flat_map (Csv.skipped_line a) es) ->
  exists e, In e es /\ Csv.e_symbol e = sym
            /\ Csv.entry_verdict a e = Csv.Skipped why.
Proof.
  intros Hin. apply in_flat_map in Hin. destruct Hin as [e [He Hin]].
  unfold Csv.skipped_line in Hin.
  destruct (Csv.entry_verdict a e) as [r|why'] eqn:Hv; [destruct Hin|].
  destruct Hin as [Heq|[]]. inversion Heq; subst. eauto.
Qed.

(** An accepted line carries the symbol of its entry. *)
Lemma csv_accepted_symbol (a : args) (e : Csv.entry) (r : Csv.result_row) :
  Csv.entry_verdict a e = Csv.Accepted r -> Csv.symbol r = Csv.e_symbol e.
Proof.
  unfold Csv.entry_verdict, Csv.process_symbol.
  destruct (Csv.e_ms e) as [ms_file|]; [|discriminate].
  destruct (Csv.e_fs e) as [fs_df|ex]; cbn [bind]; [|discriminate].
  destruct ms_file as [ms_df|ex]; cbn [bind]; [|discriminate].
  destruct (Csv.get_annual_growth fs_df 2) as [[g|]|ex]; cbn [bind];
    try discriminate.
  destruct (Csv.threshold_filter a g) as [[why|]|ex]; cbn [bind];
    try discriminate.
  destruct (Csv.get_latest_market_cap ms_df) as [cap|ex]; cbn [bind];
    [|discriminate].
  intros H; inversion H; reflexivity.
Qed.

(** The sort after the loop returns a rearrangement of the results, when
    it returns. *)
Lemma csv_insert_perm (x : Csv.result_row) (l s : list Csv.result_row) :
  Csv.insert x l = Ret s -> Permutation (x :: l) s.
Proof.
  revert s. induction l as [|y l IH]; intros s; cbn [Csv.insert].
  - intros H; inversion H; reflexivity.
  - destruct (Csv.key_lt (Csv.mcap y) (Csv.mcap x)) as [[|]|e]; cbn [bind];
      [| intros H; inversion H; reflexivity | discriminate].
    destruct (Csv.insert x l) as [s'|e]; cbn [bind]; [|discriminate].
    intros H; inversion H; subst.
    rewrite perm_swap. apply perm_skip, IH. reflexivity.
Qed.

Lemma csv_sort_perm (l s : list Csv.result_row) :
  Csv.sort l = Ret s -> Permutation l s.
Proof.
  revert s. induction l as [|x l IH]; intros s; cbn [Csv.sort].
  - intros H; inversion H; reflexivity.
  - destruct (Csv.sort l) as [s'|e]; cbn [bind]; [|discriminate].
    intros H. apply csv_insert_perm in H.
    rewrite <- H. apply perm_skip, IH. reflexivity.
Qed.







Lemma csv_print_lines_ret (rs : list Csv.result_row)
  (lines : list String.string) :
  Csv.print_lines rs = Ret lines ->
  forallb (fun r => Csv.is_number (Csv.mcap r)) rs = true
  /\ List.length lines = List.length rs.
Proof.
  revert lines. induction rs as [|r rs IH]; intros lines;
    cbn [Csv.print_lines forallb].
  - intros H; inversion H; auto.
  - unfold Csv.table_line. destruct (Csv.mcap r) as [n|];
      cbn [Csv.fmt_value bind Csv.is_number]; [|discriminate].
    destruct (Csv.print_lines rs) as [rest|e]; cbn [bind]; [|discriminate].
    intros H; inversion H; subst. destruct (IH rest eq_refl) as [Hn Hl].
    cbn [andb List.length]. auto.
Qed.




(** What [main] returns, when it returns. *)
Lemma csv_main_ret (a : args) (es : list Csv.entry) (out : Csv.output) :
  Csv.main a es = Ret out ->
  exists sorted,
    Csv.sort (flat_map (Csv.accepted_row a) es) = Ret sorted
    /\ Csv.table out = slice_to (num_result a) sorted
    /\ Csv.log out = flat_map (Csv.skipped_line a) es
    /\ forallb (fun r => Csv.is_number (Csv.mcap r)) (Csv.table out) = true
    /\ List.length (Csv.printed out) = (2 + List.length (Csv.table out))%nat.
Proof.
  unfold Csv.main. rewrite csv_main_loop_runs.
  cbn [bind Csv.results Csv.skipped app].
  destruct (Csv.sort _) as [sorted|e]; cbn [bind]; [|discriminate].
  destruct (Csv.print_lines _) as [lines|e] eqn:Hp; cbn [bind];
    [|discriminate].
  intros H; inversion H; subst; clear H. cbn [Csv.table Csv.log Csv.printed].
  apply csv_print_lines_ret in Hp. destruct Hp as [Hn Hl].
  exists sorted. cbn [List.length]. rewrite Hl. auto.
Qed.








(** C9 fails on the code.  The symbol GOOD alone gives a table of one line,
    and so it does next to VOID, whose market-cap file has no line: that
    failure is raised inside the [try] and VOID is skipped.  The symbol
    DASH, whose market-cap column is a text, goes through the [try] without
    an exception and is accepted with the text as its market cap.  With
    GOOD and DASH the sort after the loop compares the text with a number
    and the run ends in [TypeError] before the heading; with DASH alone the
    print of its line ends the run in [ValueError] after the heading.  GOOD
    is in no table then. *)
Theorem main_aborts_on_text_market_cap :
  (exists out,
      Csv.main args_a [number_cap_entry] = Ret out
      /\ map Csv.symbol (Csv.table out) = ["GOOD"]
      /\ Csv.log out = [])
  /\ (exists out,
        Csv.main args_a [no_cap_entry; number_cap_entry] = Ret out
        /\ map Csv.symbol (Csv.table out) = ["GOOD"]
        /\ Csv.log out = [("VOID", ProcessingError IndexError)])
  /\ (exists r,
        Csv.process_symbol args_a "DASH" (Ret scenario_a_int64) (Ret text_cap)
        = Ret (Csv.Accepted r)
        /\ Csv.mcap r = Csv.Text "-")
  /\ (exists st,
        Csv.main_loop args_a [number_cap_entry; text_cap_entry]
                      (Csv.mkRun [] []) = Ret st
        /\ map Csv.symbol (Csv.results st) = ["GOOD"; "DASH"]
        /\ Csv.skipped st = [])
  /\ Csv.main args_a [number_cap_entry; text_cap_entry] = Raise TypeError
  /\ Csv.main args_a [text_cap_entry; number_cap_entry] = Raise TypeError
  /\ Csv.main args_a [text_cap_entry] = Raise ValueError.
Proof.
  split; [eexists; repeat split; vm_compute; reflexivity|].
  split; [eexists; repeat split; vm_compute; reflexivity|].
  split; [eexists; split; vm_compute; reflexivity|].
  split; [eexists; repeat split; vm_compute; reflexivity|].
  repeat split; vm_compute; reflexivity.
Qed.

(** One unreadable file between two good symbols: both are in the table. *)
Example failure_between_two :
  let good sym := mkEntry sym (Ret scenario_a) (Some (Ret caps_a)) in
  let bad := mkEntry "B" (Raise ReadError) (Some (Ret caps_a)) in
  exists table,
    main args_a [good "A"; bad; good "C"]
    = Ret (table, [("B", ProcessingError ReadError)])
    /\ map symbol table = ["A"; "C"].
Proof. eexists. split; vm_compute; reflexivity. Qed.

(** * Further properties of the code *)

(** ** What a growth result is made of *)

Lemma loc_line_unique (df : frame) (k : key) (r : fs_row) :
  loc df k = Ret (Line r) -> is_unique (map key_of df) = true.
Proof.
  unfold loc. destruct (filter (has_key k) df) as [|r0 [|r1 rs]];
    try discriminate.
  destruct (is_unique (map key_of df)); [reflexivity | discriminate].
Qed.

Lemma loc_line_In (df : frame) (k : key) (r : fs_row) :
  loc df k = Ret (Line r) -> In r df /\ key_of r = k.
Proof.
  unfold loc. intros H.
  assert (Hf : In r (filter (has_key k) df)).
  { destruct (filter (has_key k) df) as [|r0 [|r1 rs]]; try discriminate.
    destruct (is_unique (map key_of df)); inversion H. left; reflexivity. }
  apply filter_In in Hf. destruct Hf as [Hin Hk].
  split; [exact Hin | now apply key_eqb_eq].
Qed.

(** An anchor whose body returns: its own line and its prior-year line were
    each found as one line, and the body added their entries. *)
Lemma anchor_body_entries (df rows : frame) (i : nat) (st st' : growth)
  (row : fs_row) :
  iloc rows i = Ret row ->
  In row df ->
  anchor_body df rows i st = Ret st' ->
  exists p,
    In p df /\ key_of p = (year row - 1, quarter row)
    /\ rev_growths st' = rev_growths st ++ revenue_entry row p
    /\ opm_growths st' = opm_growths st ++ op_margin_entry row p
    /\ recent st' = (if Nat.eqb i 0
                     then mkRecent (Some (Scalar (revenue row)))
                                   (Some (Scalar (op_margin row)))
                     else recent st).
Proof.
  intros Hrow Hin H. apply anchor_body_ret in H.
  destruct H as (row' & curr & prev & Hrow' & Hc & Hp & Hrev & Hopm & Hrec).
  rewrite Hrow in Hrow'. inversion Hrow'; subst row'; clear Hrow'.
  destruct (revenue_step_ret _ _ _ _ Hrev) as [x Hx].
  destruct curr as [c|cs]; [|discriminate].
  assert (row = c) as <- by (apply (loc_line _ _ _ Hc); auto).
  pose proof (loc_line_unique _ _ _ Hc) as Hu.
  destruct (loc_unique _ _ _ Hu Hp) as [p ->].
  destruct (loc_line_In _ _ _ Hp) as [Hpin Hpk].
  cbn [column] in Hrev, Hopm, Hrec.
  rewrite revenue_step_scalar in Hrev. rewrite op_margin_step_scalar in Hopm.
  inversion Hrev. inversion Hopm.
  exists p. repeat split; auto.
Qed.

(** X2: every growth result is made of the entries of the latest line with its
    prior-year line, then those of the second line with its prior-year
    line, and of the revenue and margin of the latest line; so each growth
    sequence has at most two entries. *)
Theorem get_annual_growth_result (df : frame) (g : growth) :
  get_annual_growth df 2 = Ret (Some g) ->
  exists r0 r1 rest p0 p1,
    sort_values_desc fs_date df = r0 :: r1 :: rest
    /\ In p0 df /\ key_of p0 = (year r0 - 1, quarter r0)
    /\ In p1 df /\ key_of p1 = (year r1 - 1, quarter r1)
    /\ g = mkGrowth
             (revenue_entry r0 p0 ++ revenue_entry r1 p1)
             (op_margin_entry r0 p0 ++ op_margin_entry r1 p1)
             (mkRecent (Some (Scalar (revenue r0)))
                       (Some (Scalar (op_margin r0))))
    /\ (List.length (rev_growths g) <= 2)%nat
    /\ (List.length (opm_growths g) <= 2)%nat.
Proof.
  intros Hg.
  destruct (le_lt_dec 2 (List.length df)) as [Hl|Hl];
    [|rewrite (get_annual_growth_short df Hl) in Hg; discriminate].
  destruct (sorted_two df Hl) as [r0 [r1 [rest Hs]]].
  rewrite (get_annual_growth_two df r0 r1 rest Hs) in Hg.
  cbn [anchor_loop] in Hg.
  destruct (anchor_body _ [r0; r1] 0 no_growth) as [st1|e] eqn:E0;
    [|destruct e; discriminate].
  destruct (anchor_body _ [r0; r1] 1 st1) as [st2|e] eqn:E1;
    [|destruct e; discriminate].
  inversion Hg; subst st2; clear Hg.
  apply (anchor_body_entries (r0 :: r1 :: rest) [r0; r1] 0 no_growth st1 r0
           eq_refl (or_introl eq_refl)) in E0.
  apply (anchor_body_entries (r0 :: r1 :: rest) [r0; r1] 1 st1 g r1
           eq_refl (or_intror (or_introl eq_refl))) in E1.
  destruct E0 as (p0 & Hp0 & Hk0 & Hrev0 & Hopm0 & Hrec0).
  destruct E1 as (p1 & Hp1 & Hk1 & Hrev1 & Hopm1 & Hrec1).
  assert (Hin : forall r, In r (r0 :: r1 :: rest) -> In r df).
  { intros r Hr. rewrite <- Hs in Hr.
    apply (stable_sort_In (fun x y => date_ltb (fs_date y) (fs_date x))).
    exact Hr. }
  cbn [Nat.eqb rev_growths opm_growths recent no_growth app] in *.
  assert (Eg : g = mkGrowth
                     (revenue_entry r0 p0 ++ revenue_entry r1 p1)
                     (op_margin_entry r0 p0 ++ op_margin_entry r1 p1)
                     (mkRecent (Some (Scalar (revenue r0)))
                               (Some (Scalar (op_margin r0))))).
  { destruct g as [revs opms rv]. cbn [rev_growths opm_growths recent] in *.
    congruence. }
  exists r0, r1, rest, p0, p1.
  split; [exact Hs|]. split; [auto|]. split; [exact Hk0|].
  split; [auto|]. split; [exact Hk1|]. split; [exact Eg|].
  rewrite Eg. cbn [rev_growths opm_growths]. rewrite !length_app.
  unfold revenue_entry, op_margin_entry.
  split;
    repeat match goal with
           | |- context [if ?b then _ else _] => destruct b
           end; simpl; lia.
Qed.

Lemma get_annual_growth_result_witness :
  exists r0 r1 rest p0 p1,
    sort_values_desc fs_date scenario_a = r0 :: r1 :: rest
    /\ In p0 scenario_a /\ key_of p0 = (year r0 - 1, quarter r0)
    /\ In p1 scenario_a /\ key_of p1 = (year r1 - 1, quarter r1)
    /\ scenario_a_growth
       = mkGrowth
           (revenue_entry r0 p0 ++ revenue_entry r1 p1)
           (op_margin_entry r0 p0 ++ op_margin_entry r1 p1)
           (mkRecent (Some (Scalar (revenue r0)))
                     (Some (Scalar (op_margin r0))))
    /\ (List.length (rev_growths scenario_a_growth) <= 2)%nat
    /\ (List.length (opm_growths scenario_a_growth) <= 2)%nat.
Proof.
  apply (get_annual_growth_result scenario_a scenario_a_growth). reflexivity.
Defined.

Lemma revenue_step_grows (c p : cell) (acc acc' : list F64.float) :
  revenue_step c p acc = Ret acc' ->
  (List.length acc' <= S (List.length acc))%nat.
Proof.
  unfold revenue_step, bind, scalar. destruct c as [x|xs]; [|discriminate].
  destruct (F64.notna x); [|intros H; inversion H; lia].
  destruct p as [y|ys]; [|discriminate].
  destruct (F64.notna y && F64.neqb y (F64.of_Z 0)); intros H; inversion H;
    rewrite ?length_app; simpl; lia.
Qed.

Lemma op_margin_step_grows (c p : cell) (acc acc' : list F64.float) :
  op_margin_step c p acc = Ret acc' ->
  (List.length acc' <= S (List.length acc))%nat.
Proof.
  unfold op_margin_step, bind, scalar. destruct c as [x|xs]; [|discriminate].
  destruct (F64.notna x); [|intros H; inversion H; lia].
  destruct p as [y|ys]; [|discriminate].
  destruct (F64.notna y && F64.gtb x (F64.of_Z 0) && F64.gtb y (F64.of_Z 0));
    intros H; inversion H; rewrite ?length_app; simpl; lia.
Qed.

Lemma anchor_loop_grows (df rows : frame) (idx : list nat) (st g : growth) :
  anchor_loop df rows idx st = Ret (Some g) ->
  (List.length (rev_growths g)
   <= List.length (rev_growths st) + List.length idx)%nat
  /\ (List.length (opm_growths g)
      <= List.length (opm_growths st) + List.length idx)%nat.
Proof.
  revert st. induction idx as [|i idx IH]; intros st H; cbn [anchor_loop] in H.
  - inversion H; subst. simpl. lia.
  - destruct (anchor_body df rows i st) as [st'|e] eqn:E;
      [|destruct e; discriminate].
    apply IH in H. apply anchor_body_ret in E.
    destruct E as (row & curr & prev & _ & _ & _ & Hrev & Hopm & _).
    apply revenue_step_grows in Hrev. apply op_margin_step_grows in Hopm.
    simpl. lia.
Qed.

(** X3: for every number of required quarters: a result needs at least that
    many records and holds at most one revenue entry and one margin entry
    for each required quarter. *)
Theorem get_annual_growth_bounds (df : frame) (n : nat) (g : growth) :
  get_annual_growth df n = Ret (Some g) ->
  (n <= List.length df)%nat
  /\ (List.length (rev_growths g) <= n)%nat
  /\ (List.length (opm_growths g) <= n)%nat.
Proof.
  unfold get_annual_growth, sort_values_desc. rewrite stable_sort_length.
  destruct (Nat.ltb_spec (List.length df) n) as [Hl|Hl]; [discriminate|].
  intros H. apply anchor_loop_grows in H. rewrite length_seq in H.
  simpl in H. lia.
Qed.

Lemma get_annual_growth_bounds_witness :
  (2 <= List.length scenario_a)%nat
  /\ (List.length (rev_growths scenario_a_growth) <= 2)%nat
  /\ (List.length (opm_growths scenario_a_growth) <= 2)%nat.
Proof.
  apply (get_annual_growth_bounds scenario_a 2 scenario_a_growth). reflexivity.
Defined.

(** ** The order of dates *)

Lemma date_ltb_iff (a b : date) :
  date_ltb a b = true
  <-> dyear a < dyear b
      \/ (dyear a = dyear b
          /\ (dmonth a < dmonth b
              \/ (dmonth a = dmonth b /\ dday a < dday b))).
Proof.
  unfold date_ltb.
  rewrite !orb_true_iff, !andb_true_iff, !orb_true_iff, !andb_true_iff,
    !Z.ltb_lt, !Z.eqb_eq.
  reflexivity.
Qed.

Lemma date_ltb_false_iff (a b : date) :
  date_ltb a b = false
  <-> ~ (dyear a < dyear b
         \/ (dyear a = dyear b
             /\ (dmonth a < dmonth b
                 \/ (dmonth a = dmonth b /\ dday a < dday b)))).
Proof. rewrite <- date_ltb_iff. symmetry. apply not_true_iff_false. Qed.

Lemma date_ltb_asym (a b : date) : date_ltb a b = true -> date_ltb b a = false.
Proof. rewrite date_ltb_iff, date_ltb_false_iff. lia. Qed.

Lemma date_not_ltb_trans (x y z : date) :
  date_ltb y x = false -> date_ltb z y = false -> date_ltb z x = false.
Proof. rewrite !date_ltb_false_iff. lia. Qed.

Lemma date_ltb_total (a b : date) :
  date_ltb a b = false -> date_ltb b a = false -> a = b.
Proof.
  rewrite !date_ltb_false_iff. destruct a as [ya ma da], b as [yb mb db].
  cbn [dyear dmonth dday]. intros H1 H2.
  assert (ya = yb /\ ma = mb /\ da = db) as (-> & -> & ->) by lia.
  reflexivity.
Qed.

Lemma sort_values_desc_sorted {A : Type} (d : A -> date) (l : list A) :
  StronglySorted (fun a b => date_ltb (d a) (d b) = false)
                 (sort_values_desc d l).
Proof.
  unfold sort_values_desc.
  apply (stable_sort_sorted (fun x y => date_ltb (d y) (d x)) (fun _ => True)).
  - intros x y. apply date_ltb_asym.
  - intros x y z _ H1 H2. exact (date_not_ltb_trans _ _ _ H2 H1).
  - apply Forall_forall. auto.
Qed.

Lemma StronglySorted_app_between {A : Type} (R : A -> A -> Prop)
  (l1 l2 : list A) :
  StronglySorted R (l1 ++ l2) ->
  forall a b, In a l1 -> In b l2 -> R a b.
Proof.
  induction l1 as [|x l1 IH]; simpl; intros Hs a b Ha Hb; [destruct Ha|].
  inversion Hs as [|? ? Hs' Hx]; subst.
  destruct Ha as [->|Ha]; [|eauto].
  rewrite Forall_forall in Hx. apply Hx, in_or_app. right. exact Hb.
Qed.

(** X4: the anchors are the latest records: the records split into the anchors
    and the others, no other record is dated after an anchor, and the first
    anchor is not dated before the second. *)
Theorem anchors_are_latest (df : frame) :
  exists others,
    Permutation (anchors df ++ others) df
    /\ (forall a r, In a (anchors df) -> In r others ->
        date_ltb (fs_date a) (fs_date r) = false)
    /\ StronglySorted (fun a b => date_ltb (fs_date a) (fs_date b) = false)
         (anchors df)
    /\ List.length (anchors df) = Nat.min 2 (List.length df).
Proof.
  exists (skipn 2 (sort_values_desc fs_date df)).
  pose proof (sort_values_desc_sorted fs_date df) as Hs.
  unfold anchors.
  rewrite <- (firstn_skipn 2 (sort_values_desc fs_date df)) in Hs.
  split; [|split; [|split]].
  - rewrite firstn_skipn. apply stable_sort_perm.
  - apply (StronglySorted_app_between _ _ _ Hs).
  - clear Hs. pose proof (sort_values_desc_sorted fs_date df) as Hs.
    destruct (sort_values_desc fs_date df) as [|r0 [|r1 rest]];
      cbn [firstn]; try exact Hs.
    inversion Hs as [|? ? Hs' H0]; subst.
    inversion H0; subst.
    constructor; [constructor; constructor|]. constructor; [assumption|constructor].
  - rewrite length_firstn. unfold sort_values_desc.
    now rewrite stable_sort_length.
Qed.

(** ** get_latest_market_cap *)

(** X5: the market cap returned is that of a line with the latest date; only an
    empty frame raises, with [IndexError]. *)
Theorem get_latest_market_cap_latest (df : list ms_row) :
  (df = [] -> get_latest_market_cap df = Raise IndexError)
  /\ (df <> [] ->
      exists r,
        In r df
        /\ get_latest_market_cap df = Ret (market_cap r)
        /\ forall r', In r' df -> date_ltb (ms_date r) (ms_date r') = false).
Proof.
  split; [intros ->; reflexivity|].
  intros Hne. unfold get_latest_market_cap.
  pose proof (sort_values_desc_sorted ms_date df) as Hs.
  assert (Hin : forall x, In x (sort_values_desc ms_date df) <-> In x df)
    by (intros x; apply stable_sort_In).
  destruct (sort_values_desc ms_date df) as [|r rest] eqn:E.
  - exfalso. destruct df as [|r0 df]; [congruence|].
    apply (proj2 (Hin r0)). left; reflexivity.
  - exists r. split; [apply Hin; left; reflexivity|].
    split; [reflexivity|].
    intros r' Hr'. apply Hin in Hr'. destruct Hr' as [<-|Hr'].
    + destruct (date_ltb (ms_date r) (ms_date r)) eqn:F; [|reflexivity].
      now rewrite (date_ltb_asym _ _ F) in F.
    + inversion Hs as [|? ? _ Hall]; subst.
      rewrite Forall_forall in Hall. auto.
Qed.

(** ** More of the order of binary64 *)

Lemma ltb_leb_trans (x y z : F64.float) :
  F64.ltb x y = true -> F64.leb y z = true -> F64.ltb x z = true.
Proof. unfold F64.ltb, F64.leb, SFltb, SFleb. float_order x y z. Qed.

Lemma leb_ltb_trans (x y z : F64.float) :
  F64.leb x y = true -> F64.ltb y z = true -> F64.ltb x z = true.
Proof. unfold F64.ltb, F64.leb, SFltb, SFleb. float_order x y z. Qed.

Lemma ltb_not_nan (x y : F64.float) :
  F64.ltb x y = true -> F64.is_nan x = false /\ F64.is_nan y = false.
Proof. destruct x, y; simpl; intros H; try discriminate; auto. Qed.


(** ** Lower thresholds keep the accepted symbols *)

Lemma all_exceed_weaker (t' t : F64.float) (gs : list F64.float) :
  F64.leb t' t = true -> all_exceed t gs = true -> all_exceed t' gs = true.
Proof.
  intros Ht. unfold all_exceed. rewrite !forallb_forall.
  intros H g Hg. unfold F64.gtb in *.
  exact (leb_ltb_trans _ _ _ Ht (H g Hg)).
Qed.

Lemma growth_ok_weaker (t' t : F64.float) (gs : list F64.float) :
  F64.leb t' t = true -> growth_ok t gs = true -> growth_ok t' gs = true.
Proof.
  intros Ht. rewrite !growth_ok_iff. intros [Hl Ha].
  split; [exact Hl | exact (all_exceed_weaker _ _ _ Ht Ha)].
Qed.

Lemma growth_gate_weaker (a' a : args) (revs opms : list F64.float) :
  F64.leb (pergro_revenue a') (pergro_revenue a) = true ->
  F64.leb (pergro_op_margin a') (pergro_op_margin a) = true ->
  growth_gate a revs opms = None -> growth_gate a' revs opms = None.
Proof.
  intros Hr Ho. unfold growth_gate, rev_ok, opm_ok.
  pose proof (growth_ok_weaker _ _ revs Hr) as Wr.
  pose proof (growth_ok_weaker _ _ opms Ho) as Wo.
  destruct (truthy revs), (truthy opms); cbn [andb];
    destruct (growth_ok (pergro_revenue a) revs),
             (growth_ok (pergro_op_margin a) opms);
    cbn [andb negb]; try discriminate;
    rewrite ?Wr, ?Wo by reflexivity; auto.
Qed.

Lemma below_limit_weaker (v : option cell) (l' l : F64.float) :
  F64.leb l' l = true ->
  below_limit v l = Ret false -> below_limit v l' = Ret false.
Proof.
  intros Hl. destruct v as [[x|xs]|]; cbn [below_limit scalar bind]; auto.
  intros H. inversion H as [Hx]. rewrite Hx. f_equal.
  destruct (F64.ltb x l') eqn:E; [|reflexivity].
  rewrite (ltb_leb_trans _ _ _ E Hl) in Hx. discriminate.
Qed.

Lemma threshold_filter_weaker (a' a : args) (g : growth) :
  weaker a' a ->
  threshold_filter a g = Ret None -> threshold_filter a' g = Ret None.
Proof.
  intros (Hr & Ho & Hrl & Hol). unfold threshold_filter. intros H.
  apply bind_ret in H. destruct H as [[|] [H1 H]]; [discriminate|].
  apply bind_ret in H. destruct H as [[|] [H2 H]]; [discriminate|].
  rewrite (below_limit_weaker _ _ _ Hrl H1). cbn [bind].
  rewrite (below_limit_weaker _ _ _ Hol H2). cbn [bind].
  inversion H as [Hg]. now rewrite Hg, (growth_gate_weaker a' a _ _ Hr Ho Hg).
Qed.

(** X6: a symbol accepted under some thresholds and floors is accepted, with
    the same line, under thresholds and floors that are no higher. *)
Theorem weaker_arguments_keep_symbols (a' a : args) (e : entry)
  (r : result_row) :
  weaker a' a ->
  entry_verdict a e = Accepted r -> entry_verdict a' e = Accepted r.
Proof.
  intros Hw. unfold entry_verdict.
  destruct (e_ms e) as [ms_file|]; [|discriminate].
  destruct (process_symbol a (e_symbol e) (e_fs e) ms_file) as [v|ex] eqn:Hp;
    [|discriminate].
  intros ->. apply process_symbol_accepted in Hp.
  destruct Hp as (fs_df & ms_df & g & cap & Hfs & Hms & Hg & Hwhy & Hcap & ->).
  unfold process_symbol. rewrite Hfs, Hms. cbn [bind]. rewrite Hg. cbn [bind].
  rewrite (threshold_filter_weaker a' a g Hw Hwhy). cbn [bind].
  rewrite Hcap. reflexivity.
Qed.

Lemma weaker_arguments_keep_symbols_witness :
  entry_verdict args_loose (good_entry "A") = Accepted scenario_a_row.
Proof.
  apply (weaker_arguments_keep_symbols args_loose args_a);
    [repeat split | reflexivity].
Defined.

(** ** The lines of the table *)

Lemma has_dot_append (s t : String.string) :
  has_dot (String.append s t) = has_dot s || has_dot t.
Proof.
  induction s as [|c s IH]; simpl; [reflexivity|].
  now rewrite IH, orb_assoc.
Qed.

Lemma fixed2_has_dot (neg : bool) (h : Z) : has_dot (fixed2 neg h) = true.
Proof.
  unfold fixed2. rewrite !has_dot_append. simpl.
  now rewrite !orb_true_r.
Qed.

Lemma fmt_number (val : F64.float) :
  F64.is_nan val = false -> fmt val <> "NaN".
Proof.
  destruct val as [s|s| |s m e]; simpl; intros Hn H; try discriminate.
  - pose proof (fixed2_has_dot s 0) as D. rewrite H in D. discriminate.
  - destruct s; discriminate.
  - pose proof (fixed2_has_dot s (hundredths m e)) as D. rewrite H in D.
    discriminate.
Qed.

(** X7: [fmt] prints the marker NaN for a NaN and for nothing else. *)
Theorem fmt_NaN_iff (val : F64.float) :
  fmt val = "NaN" <-> F64.is_nan val = true.
Proof.
  destruct val as [s|s| |s m e]; simpl; split; intros H;
    try reflexivity; try discriminate.
  - pose proof (fixed2_has_dot s 0) as D. rewrite H in D. discriminate.
  - destruct s; discriminate.
  - pose proof (fixed2_has_dot s (hundredths m e)) as D. rewrite H in D.
    discriminate.
Qed.

Lemma growth_gate_passes (a : args) (revs opms : list F64.float) :
  growth_gate a revs opms = None ->
  (growth_ok (pergro_revenue a) revs = true \/ revs = [])
  /\ (growth_ok (pergro_op_margin a) opms = true \/ opms = [])
  /\ (growth_ok (pergro_revenue a) revs = true
      \/ growth_ok (pergro_op_margin a) opms = true).
Proof.
  unfold growth_gate, rev_ok, opm_ok.
  destruct revs as [|r revs], opms as [|o opms]; cbn [truthy andb];
    try discriminate;
    repeat match goal with
           | |- context [growth_ok ?t ?l] => destruct (growth_ok t l)
           end; cbn [andb negb]; try discriminate; auto.
Qed.

Lemma growth_ok_columns (t : F64.float) (gs : list F64.float) :
  growth_ok t gs = true ->
  metric_complete t (growth_or_nan gs 0) (growth_or_nan gs 1).
Proof.
  rewrite growth_ok_iff. intros [Hl Ha].
  destruct gs as [|g1 [|g2 [|]]]; try discriminate.
  unfold all_exceed in Ha. cbn [forallb] in Ha.
  apply andb_true_iff in Ha. destruct Ha as [H1 H2].
  apply andb_true_iff in H2. destruct H2 as [H2 _].
  split; assumption.
Qed.

(** X8: in a line of the table each metric shows its two growths, both above
    the threshold, or none (two NaN, printed as the marker), and at least
    one metric shows its two growths. *)
Theorem accepted_metrics_whole (a : args) (e : entry) (r : result_row) :
  entry_verdict a e = Accepted r ->
  (metric_complete (pergro_revenue a) (rev_g1 r) (rev_g2 r)
   \/ metric_absent (rev_g1 r) (rev_g2 r))
  /\ (metric_complete (pergro_op_margin a) (opm_g1 r) (opm_g2 r)
      \/ metric_absent (opm_g1 r) (opm_g2 r))
  /\ (metric_complete (pergro_revenue a) (rev_g1 r) (rev_g2 r)
      \/ metric_complete (pergro_op_margin a) (opm_g1 r) (opm_g2 r))
  /\ (fmt (rev_g1 r) = "NaN" <-> fmt (rev_g2 r) = "NaN")
  /\ (fmt (opm_g1 r) = "NaN" <-> fmt (opm_g2 r) = "NaN").
Proof.
  unfold entry_verdict.
  destruct (e_ms e) as [ms_file|]; [|discriminate].
  destruct (process_symbol a (e_symbol e) (e_fs e) ms_file) as [v|ex] eqn:Hp;
    [|discriminate].
  intros ->. apply process_symbol_accepted in Hp.
  destruct Hp as (fs_df & ms_df & g & cap & _ & _ & _ & Hwhy & _ & ->).
  cbn [rev_g1 rev_g2 opm_g1 opm_g2].
  unfold threshold_filter in Hwhy.
  apply bind_ret in Hwhy. destruct Hwhy as [[|] [_ H]]; [discriminate|].
  apply bind_ret in H. destruct H as [[|] [_ H]]; [discriminate|].
  inversion H as [Hg]. apply growth_gate_passes in Hg.
  destruct Hg as (Hr & Ho & Hone).
  assert (Wr : metric_complete (pergro_revenue a)
                 (growth_or_nan (rev_growths g) 0)
                 (growth_or_nan (rev_growths g) 1)
               \/ metric_absent (growth_or_nan (rev_growths g) 0)
                    (growth_or_nan (rev_growths g) 1)).
  { destruct Hr as [Hr| ->]; [left; now apply growth_ok_columns|].
    right. split; reflexivity. }
  assert (Wo : metric_complete (pergro_op_margin a)
                 (growth_or_nan (opm_growths g) 0)
                 (growth_or_nan (opm_growths g) 1)
               \/ metric_absent (growth_or_nan (opm_growths g) 0)
                    (growth_or_nan (opm_growths g) 1)).
  { destruct Ho as [Ho| ->]; [left; now apply growth_ok_columns|].
    right. split; reflexivity. }
  split; [exact Wr|]. split; [exact Wo|]. split.
  { destruct Hone as [H1|H1]; [left|right]; now apply growth_ok_columns. }
  split; [clear Wo; destruct Wr as [[H1 H2]|[H1 H2]]
         | clear Wr; destruct Wo as [[H1 H2]|[H1 H2]]].
  - apply ltb_not_nan in H1, H2. destruct H1 as [_ H1], H2 as [_ H2].
    split; intros Hf; exfalso;
      [exact (fmt_number _ H1 Hf) | exact (fmt_number _ H2 Hf)].
  - apply is_nan_eq in H1, H2. rewrite H1, H2. tauto.
  - apply ltb_not_nan in H1, H2. destruct H1 as [_ H1], H2 as [_ H2].
    split; intros Hf; exfalso;
      [exact (fmt_number _ H1 Hf) | exact (fmt_number _ H2 Hf)].
  - apply is_nan_eq in H1, H2. rewrite H1, H2. tauto.
Qed.

Lemma accepted_metrics_whole_witness :
  (metric_complete (pergro_revenue args_a)
     (rev_g1 scenario_a_row) (rev_g2 scenario_a_row)
   \/ metric_absent (rev_g1 scenario_a_row) (rev_g2 scenario_a_row))
  /\ (metric_complete (pergro_op_margin args_a)
        (opm_g1 scenario_a_row) (opm_g2 scenario_a_row)
      \/ metric_absent (opm_g1 scenario_a_row) (opm_g2 scenario_a_row))
  /\ (metric_complete (pergro_revenue args_a)
        (rev_g1 scenario_a_row) (rev_g2 scenario_a_row)
      \/ metric_complete (pergro_op_margin args_a)
           (opm_g1 scenario_a_row) (opm_g2 scenario_a_row))
  /\ (fmt (rev_g1 scenario_a_row) = "NaN"
      <-> fmt (rev_g2 scenario_a_row) = "NaN")
  /\ (fmt (opm_g1 scenario_a_row) = "NaN"
      <-> fmt (opm_g2 scenario_a_row) = "NaN").
Proof.
  apply (accepted_metrics_whole args_a (good_entry "A")). reflexivity.
Defined.

(** ** The table as a prefix of the sorted results *)

Lemma rank_length (rs : list result_row) (count : Z) :
  Z.of_nat (List.length (rank rs count))
  = (if 0 <=? count
     then Z.min count (Z.of_nat (List.length rs))
     else Z.max 0 (Z.of_nat (List.length rs) + count)).
Proof.
  unfold rank, slice_to.
  assert (Hl : List.length (sort_by_market_cap rs) = List.length rs)
    by apply stable_sort_length.
  destruct (0 <=? count) eqn:E; rewrite length_firstn, Hl;
    [apply Z.leb_le in E | apply Z.leb_gt in E]; lia.
Qed.

(** X9: for every count the table is a prefix of the results sorted by market
    cap: a count that is not negative keeps that many lines, a negative
    count [-k] drops the last [k] lines. *)
Theorem rank_is_a_prefix (rs : list result_row) (count : Z) :
  exists dropped,
    rank rs count ++ dropped = sort_by_market_cap rs
    /\ Z.of_nat (List.length dropped)
       = (if 0 <=? count
          then Z.max 0 (Z.of_nat (List.length rs) - count)
          else Z.min (Z.of_nat (List.length rs)) (- count))
    /\ Z.of_nat (List.length (rank rs count))
       = (if 0 <=? count
          then Z.min count (Z.of_nat (List.length rs))
          else Z.max 0 (Z.of_nat (List.length rs) + count)).
Proof.
  unfold rank, slice_to.
  assert (Hl : List.length (sort_by_market_cap rs) = List.length rs)
    by apply stable_sort_length.
  destruct (0 <=? count) eqn:E.
  - apply Z.leb_le in E.
    exists (skipn (Z.to_nat count) (sort_by_market_cap rs)).
    rewrite firstn_skipn, length_skipn, length_firstn, Hl. repeat split; lia.
  - apply Z.leb_gt in E. rewrite Hl.
    exists (skipn (Z.to_nat (Z.of_nat (List.length rs) + count))
              (sort_by_market_cap rs)).
    rewrite firstn_skipn, length_skipn, length_firstn, Hl. repeat split; lia.
Qed.

(** ** Every entry is accounted for *)

Lemma accepted_or_skipped (a : args) (es : list entry) :
  (List.length (flat_map (accepted_row a) es)
   + List.length (flat_map (skipped_line a) es))%nat
  = List.length es.
Proof.
  induction es as [|e es IH]; simpl; [reflexivity|].
  rewrite !length_app.
  assert (List.length (accepted_row a e) + List.length (skipped_line a e)
          = 1)%nat.
  { unfold accepted_row, skipped_line.
    destruct (entry_verdict a e); reflexivity. }
  lia.
Qed.


(** ** Results that do not depend on an order *)

Section SortedUnique.
Context {A : Type}.
Variable lt : A -> A -> bool.

(** Two sorted arrangements of the same elements are the same list when
    elements that [lt] does not separate are equal. *)
Lemma sorted_perm_unique (l1 l2 : list A) :
  Permutation l1 l2 ->
  StronglySorted (fun a b => lt b a = false) l1 ->
  StronglySorted (fun a b => lt b a = false) l2 ->
  (forall x y, In x l1 -> In y l1 ->
               lt x y = false -> lt y x = false -> x = y) ->
  l1 = l2.
Proof.
  revert l2. induction l1 as [|x t1 IH]; intros l2 Hp H1 H2 Hanti.
  - apply Permutation_nil in Hp. now subst.
  - destruct l2 as [|y t2];
      [apply Permutation_sym, Permutation_nil in Hp; discriminate|].
    inversion H1 as [|? ? H1' Hx]; subst.
    inversion H2 as [|? ? H2' Hy]; subst.
    rewrite Forall_forall in Hx, Hy.
    assert (Hxy : x = y).
    { assert (Hxin : In x (y :: t2))
        by (eapply Permutation_in; [exact Hp | left; reflexivity]).
      assert (Hyin : In y (x :: t1))
        by (eapply Permutation_in;
            [symmetry; exact Hp | left; reflexivity]).
      destruct Hxin as [->|Hxin]; [reflexivity|].
      destruct Hyin as [->|Hyin]; [reflexivity|].
      apply Hanti; [left; reflexivity | right; exact Hyin | |].
      - apply Hy, Hxin.
      - apply Hx, Hyin. }
    subst y. f_equal. apply Permutation_cons_inv in Hp.
    apply IH; auto. intros a b Ha Hb. apply Hanti; right; assumption.
Qed.

Variable ok : A -> Prop.
Hypothesis lt_asym : forall x y, lt x y = true -> lt y x = false.
Hypothesis le_trans :
  forall x y z, ok y -> lt y x = false -> lt z y = false -> lt z x = false.

Lemma stable_sort_perm_unique (l1 l2 : list A) :
  Permutation l1 l2 ->
  Forall ok l1 ->
  (forall x y, In x l1 -> In y l1 ->
               lt x y = false -> lt y x = false -> x = y) ->
  stable_sort lt l1 = stable_sort lt l2.
Proof.
  intros Hp Hok Hanti.
  assert (Hok2 : Forall ok l2) by (eapply Permutation_Forall; eauto).
  apply sorted_perm_unique.
  - rewrite !stable_sort_perm. exact Hp.
  - apply (stable_sort_sorted lt ok); auto.
  - apply (stable_sort_sorted lt ok); auto.
  - intros x y Hx Hy. apply Hanti; apply (stable_sort_In lt); assumption.
Qed.

End SortedUnique.

Lemma date_eqb_eq (a b : date) : date_eqb a b = true <-> a = b.
Proof.
  destruct a as [ya ma da], b as [yb mb db]. unfold date_eqb.
  cbn [dyear dmonth dday]. rewrite !andb_true_iff, !Z.eqb_eq.
  split; [intros [[-> ->] ->]; reflexivity | intros H; inversion H; auto].
Qed.

Lemma distinct_dates_inj {A : Type} (d : A -> date) (l : list A) :
  distinct_dates (map d l) = true ->
  forall x y, In x l -> In y l -> d x = d y -> x = y.
Proof.
  induction l as [|z l IH]; simpl; [intros _ x y []|].
  rewrite andb_true_iff, negb_true_iff. intros [Hz Hl] x y Hx Hy Hd.
  assert (Hnot : forall w, In w l -> d z <> d w).
  { intros w Hw Heq.
    assert (existsb (date_eqb (d z)) (map d l) = true); [|congruence].
    apply existsb_exists. exists (d w).
    split; [now apply in_map | now apply date_eqb_eq]. }
  destruct Hx as [<-|Hx], Hy as [<-|Hy]; auto.
  - exfalso. exact (Hnot y Hy Hd).
  - exfalso. exact (Hnot x Hx (eq_sym Hd)).
Qed.

Lemma sort_values_desc_perm_unique (df df' : frame) :
  Permutation df df' ->
  distinct_dates (map fs_date df) = true ->
  sort_values_desc fs_date df = sort_values_desc fs_date df'.
Proof.
  intros Hp Hd. unfold sort_values_desc.
  apply (stable_sort_perm_unique _ (fun _ => True)); auto.
  - intros x y. apply date_ltb_asym.
  - intros x y z _ H1 H2. exact (date_not_ltb_trans _ _ _ H2 H1).
  - apply Forall_forall. auto.
  - intros x y Hx Hy H1 H2.
    apply (distinct_dates_inj fs_date df Hd); auto.
    apply date_ltb_total; assumption.
Qed.

(** X11: the growth computation does not depend on the order of the lines of
    the file when no two lines have the same date. *)
Theorem get_annual_growth_ignores_line_order (df df' : frame) (n : nat) :
  Permutation df df' ->
  distinct_dates (map fs_date df) = true ->
  get_annual_growth df n = get_annual_growth df' n.
Proof.
  intros Hp Hd. unfold get_annual_growth.
  now rewrite (sort_values_desc_perm_unique df df' Hp Hd).
Qed.

Lemma get_annual_growth_ignores_line_order_witness :
  get_annual_growth scenario_a 2 = get_annual_growth (rev scenario_a) 2.
Proof.
  apply (get_annual_growth_ignores_line_order scenario_a (rev scenario_a) 2);
    [apply Permutation_rev | reflexivity].
Defined.




(** The two symbols of scenario D are both accepted, and the table lists
    the smaller market cap first, whichever way the directory lists them. *)
Example scenario_d_table :
  (exists log, main args_a scenario_d
               = Ret ([ mkResult "SMALL" (rev_g1 scenario_a_row)
                          (rev_g2 scenario_a_row) (opm_g1 scenario_a_row)
                          (opm_g2 scenario_a_row) (F64.of_Z 20000000000);
                        mkResult "LARGE" (rev_g1 scenario_a_row)
                          (rev_g2 scenario_a_row) (opm_g1 scenario_a_row)
                          (opm_g2 scenario_a_row) (F64.of_Z 50000000000) ],
                      log))
  /\ map symbol (fst (match main args_a (rev scenario_d) with
                      | Ret out => out
                      | Raise _ => ([], [])
                      end)) = ["SMALL"; "LARGE"].
Proof. split; [eexists|]; vm_compute; reflexivity. Qed.

(** ** The two metrics are treated alike *)

Lemma growth_gate_swap (a : args) (revs opms : list F64.float) :
  growth_gate (swap_metrics a) opms revs
  = option_map swap_reason (growth_gate a revs opms).
Proof.
  unfold growth_gate, rev_ok, opm_ok, swap_metrics.
  cbn [pergro_revenue pergro_op_margin].
  destruct (truthy revs), (truthy opms); cbn [andb];
    repeat match goal with
           | |- context [growth_ok ?t ?l] => destruct (growth_ok t l)
           end; reflexivity.
Qed.

(** X13: exchanging the roles of revenue and margin, in the arguments and in the
    result, exchanges the reasons of the growth cascade and keeps the
    verdict of the filter: a symbol passes the one iff it passes the
    other. *)
Theorem threshold_filter_symmetric (a : args) (g : growth) :
  growth_gate (swap_metrics a) (opm_growths g) (rev_growths g)
  = option_map swap_reason (growth_gate a (rev_growths g) (opm_growths g))
  /\ (threshold_filter (swap_metrics a) (swap_growth g) = Ret None
      <-> threshold_filter a g = Ret None).
Proof.
  split; [apply growth_gate_swap|].
  unfold threshold_filter, swap_growth, swap_metrics.
  cbn [recent rv_revenue rv_op_margin revenue_limit op_margin_limit
       rev_growths opm_growths].
  pose proof (growth_gate_swap a (rev_growths g) (opm_growths g)) as Hs.
  unfold swap_metrics in Hs. rewrite Hs.
  destruct (below_limit (rv_revenue (recent g)) (revenue_limit a))
    as [[|]|e1];
    destruct (below_limit (rv_op_margin (recent g)) (op_margin_limit a))
      as [[|]|e2];
    cbn [bind]; try (split; discriminate).
  destruct (growth_gate a (rev_growths g) (opm_growths g)); cbn [option_map];
    split; intros H; try discriminate; reflexivity.
Qed.

(** ** Thresholds that are not numbers *)

Lemma growth_ok_nan (gs : list F64.float) : growth_ok F64.nan gs = false.
Proof.
  destruct (growth_ok F64.nan gs) eqn:E; [|reflexivity].
  apply growth_ok_iff in E. destruct E as [Hl Ha].
  destruct gs as [|g gs]; [discriminate|].
  unfold all_exceed in Ha. cbn [forallb] in Ha.
  unfold F64.gtb in Ha. rewrite ltb_nan_l in Ha. discriminate.
Qed.

(** X14: with both growth thresholds NaN no growth exceeds them: every entry is
    skipped and the table is empty. *)
Theorem nan_thresholds_accept_nothing (a : args) (es : list entry) :
  F64.is_nan (pergro_revenue a) = true ->
  F64.is_nan (pergro_op_margin a) = true ->
  exists log,
    main a es = Ret ([], log) /\ List.length log = List.length es.
Proof.
  intros Hr Ho. apply is_nan_eq in Hr, Ho.
  assert (Hnone : forall e, accepted_row a e = []).
  { intros e. unfold accepted_row.
    destruct (entry_verdict a e) as [r|] eqn:Hv; [|reflexivity].
    exfalso. unfold entry_verdict in Hv.
    destruct (e_ms e) as [ms_file|]; [|discriminate].
    destruct (process_symbol a (e_symbol e) (e_fs e) ms_file) as [v|ex]
      eqn:Hp; [|discriminate].
    subst v. apply process_symbol_accepted in Hp.
    destruct Hp as (fs_df & ms_df & g & cap & _ & _ & _ & Hwhy & _).
    unfold threshold_filter in Hwhy.
    apply bind_ret in Hwhy. destruct Hwhy as [[|] [_ H]]; [discriminate|].
    apply bind_ret in H. destruct H as [[|] [_ H]]; [discriminate|].
    inversion H as [Hg]. apply growth_gate_passes in Hg.
    destruct Hg as (_ & _ & [Hg|Hg]); rewrite ?Hr, ?Ho in Hg;
      rewrite growth_ok_nan in Hg; discriminate. }
  assert (Hall : flat_map (accepted_row a) es = []).
  { induction es as [|e es IH]; simpl; [reflexivity|].
    now rewrite Hnone, IH. }
  unfold main. rewrite main_loop_runs. cbn [bind results skipped app].
  eexists. split.
  - rewrite Hall. unfold rank, slice_to. cbn.
    destruct (0 <=? num_result a); now rewrite firstn_nil.
  - pose proof (accepted_or_skipped a es) as Hn. rewrite Hall in Hn.
    simpl in Hn. exact Hn.
Qed.

Lemma nan_thresholds_accept_nothing_witness :
  exists log,
    main args_nan [good_entry "A"; lonely] = Ret ([], log)
    /\ List.length log = List.length [good_entry "A"; lonely].
Proof.
  apply (nan_thresholds_accept_nothing args_nan [good_entry "A"; lonely]);
    reflexivity.
Defined.

(** ** The directories *)

Lemma endswith_append (t suffix : String.string) :
  endswith (String.append t suffix) suffix = true.
Proof.
  induction t as [|c t IH].
  - change (String.append String.EmptyString suffix) with suffix.
    destruct suffix; cbn [endswith]; rewrite String.eqb_refl; reflexivity.
  - change (String.append (String.String c t) suffix)
      with (String.String c (String.append t suffix)).
    cbn [endswith]. rewrite IH. apply orb_true_r.
Qed.

Lemma endswith_inv (s suffix : String.string) :
  endswith s suffix = true -> exists t, s = String.append t suffix.
Proof.
  induction s as [|c s IH]; cbn [endswith]; intros H.
  - rewrite orb_false_r in H. apply String.eqb_eq in H. subst.
    exists String.EmptyString. reflexivity.
  - apply orb_true_iff in H. destruct H as [H|H].
    + apply String.eqb_eq in H. exists String.EmptyString. exact H.
    + destruct (IH H) as [t ->]. exists (String.String c t). reflexivity.
Qed.

(** At the start of a text that is not empty, [.csv] is found in the text
    with [.csv] added iff it is found in the text itself. *)
Lemma starts_with_csv_append (c : Ascii.ascii) (s : String.string) :
  starts_with ".csv" (String.append (String.String c s) ".csv")
  = starts_with ".csv" (String.String c s).
Proof.
  destruct s as [|c2 [|c3 [|c4 rest]]]; simpl;
    rewrite ?andb_false_r, ?andb_true_r; reflexivity.
Qed.

Lemma replace_csv_suffix (sym : String.string) :
  contains ".csv" sym = false ->
  replace_from ".csv" "" 0 (String.append sym ".csv") = sym.
Proof.
  induction sym as [|c sym IH]; intros H; [reflexivity|].
  cbn [contains] in H. apply orb_false_iff in H. destruct H as [Hs Hc].
  change (String.append (String.String c sym) ".csv")
    with (String.String c (String.append sym ".csv")).
  cbn [replace_from].
  change (String.String c (String.append sym ".csv"))
    with (String.append (String.String c sym) ".csv").
  rewrite starts_with_csv_append, Hs.
  now rewrite (IH Hc).
Qed.

(** X15: the file [SYMBOL.csv], for a symbol that does not hold [.csv], is
    processed under the symbol [SYMBOL], with the market-cap file
    [SYMBOL_d.csv]. *)
Theorem symbol_of_round_trip (d : directories) (sym : String.string) :
  contains ".csv" sym = false ->
  symbol_of (String.append sym ".csv") = sym
  /\ entry_of d (String.append sym ".csv")
     = [mkEntry sym (read_fs d (String.append sym ".csv"))
                (read_ms d (String.append sym "_d.csv"))].
Proof.
  intros H.
  assert (Hs : symbol_of (String.append sym ".csv") = sym)
    by (apply replace_csv_suffix, H).
  split; [exact Hs|].
  unfold entry_of, ms_name. now rewrite endswith_append, Hs.
Qed.

Lemma symbol_of_round_trip_witness :
  symbol_of (String.append "005930" ".csv") = "005930"
  /\ entry_of sample_dirs (String.append "005930" ".csv")
     = [mkEntry "005930"
          (read_fs sample_dirs (String.append "005930" ".csv"))
          (read_ms sample_dirs (String.append "005930" "_d.csv"))].
Proof. apply (symbol_of_round_trip sample_dirs "005930"). reflexivity. Defined.

Lemma entry_of_inv (d : directories) (fname : String.string) (e : entry) :
  In e (entry_of d fname) ->
  (exists t, fname = String.append t ".csv")
  /\ e = mkEntry (symbol_of fname) (read_fs d fname)
               (read_ms d (ms_name (symbol_of fname))).
Proof.
  unfold entry_of. destruct (endswith fname ".csv") eqn:E; [|intros []].
  intros [<-|[]]. split; [now apply endswith_inv | reflexivity].
Qed.

Lemma entries_of_length (d : directories) :
  List.length (entries_of d)
  = List.length (filter (fun f => endswith f ".csv") (listing d)).
Proof.
  unfold entries_of. induction (listing d) as [|f l IH]; simpl; [reflexivity|].
  rewrite length_app, IH. unfold entry_of.
  destruct (endswith f ".csv"); reflexivity.
Qed.

Lemma csv_entry_of_inv (d : Csv.directories) (fname : String.string)
  (e : Csv.entry) :
  In e (Csv.entry_of d fname) ->
  (exists t, fname = String.append t ".csv")
  /\ e = Csv.mkEntry (symbol_of fname) (Csv.read_fs d fname)
                     (Csv.read_ms d (ms_name (symbol_of fname))).
Proof.
  unfold Csv.entry_of. destruct (endswith fname ".csv") eqn:E; [|intros []].
  intros [<-|[]]. split; [now apply endswith_inv | reflexivity].
Qed.

Lemma csv_entries_of_length (d : Csv.directories) :
  List.length (Csv.entries_of d)
  = List.length (filter (fun f => endswith f ".csv") (Csv.listing d)).
Proof.
  unfold Csv.entries_of.
  induction (Csv.listing d) as [|f l IH]; simpl; [reflexivity|].
  rewrite length_app, IH. unfold Csv.entry_of.
  destruct (endswith f ".csv"); reflexivity.
Qed.

(** X16: the loop of [main] over the two directories never raises.  Each skip
    line and each accepted line carries the symbol of a listed name of the
    form [t.csv], and names of another form are passed over; a listed
    [t.csv] whose symbol has no market-cap file is skipped for that,
    whatever the file holds.  A run that returns has the skip lines of the
    loop, and the lines of its table are accepted lines of the loop. *)
Theorem main_in_reads_csv_names (a : args) (d : Csv.directories) :
  exists st,
    Csv.main_loop a (Csv.entries_of d) (Csv.mkRun [] []) = Ret st
    /\ (forall sym why, In (sym, why) (Csv.skipped st) ->
        exists t, In (String.append t ".csv") (Csv.listing d)
                  /\ sym = symbol_of (String.append t ".csv"))
    /\ (forall r, In r (Csv.results st) ->
        exists t, In (String.append t ".csv") (Csv.listing d)
                  /\ Csv.symbol r = symbol_of (String.append t ".csv"))
    /\ (List.length (Csv.skipped st)
        <= List.length (filter (fun f => endswith f ".csv") (Csv.listing d)))%nat
    /\ (forall t,
          In (String.append t ".csv") (Csv.listing d) ->
          Csv.read_ms d (ms_name (symbol_of (String.append t ".csv"))) = None ->
          In (symbol_of (String.append t ".csv"), MarketCapNotFound)
             (Csv.skipped st))
    /\ (forall out, Csv.main_in a d = Ret out ->
        Csv.log out = Csv.skipped st
        /\ forall r, In r (Csv.table out) -> In r (Csv.results st)).
Proof.
  rewrite csv_main_loop_runs. eexists. split; [reflexivity|].
  cbn [Csv.results Csv.skipped app].
  assert (Hname : forall e, In e (Csv.entries_of d) ->
            exists t, In (String.append t ".csv") (Csv.listing d)
                      /\ Csv.e_symbol e = symbol_of (String.append t ".csv")).
  { intros e He. unfold Csv.entries_of in He. apply in_flat_map in He.
    destruct He as [fname [Hf He]]. apply csv_entry_of_inv in He.
    destruct He as [[t ->] ->]. exists t. split; [exact Hf | reflexivity]. }
  split; [|split; [|split; [|split]]].
  - intros sym why Hin. apply csv_skipped_line_In in Hin.
    destruct Hin as (e & He & <- & _). apply Hname, He.
  - intros r Hin. apply csv_accepted_row_In in Hin.
    destruct Hin as (e & He & Hv).
    rewrite (csv_accepted_symbol a e r Hv). apply Hname, He.
  - rewrite <- csv_entries_of_length.
    pose proof (csv_accepted_or_skipped a (Csv.entries_of d)). lia.
  - intros t Hin Hms. apply in_flat_map.
    exists (Csv.mkEntry (symbol_of (String.append t ".csv"))
              (Csv.read_fs d (String.append t ".csv"))
              (Csv.read_ms d (ms_name (symbol_of (String.append t ".csv"))))).
    split.
    + unfold Csv.entries_of. apply in_flat_map. exists (String.append t ".csv").
      split; [exact Hin|]. unfold Csv.entry_of. rewrite endswith_append.
      left; reflexivity.
    + unfold Csv.skipped_line, Csv.entry_verdict. cbn [Csv.e_ms Csv.e_symbol].
      rewrite Hms. left; reflexivity.
  - intros out Hout. unfold Csv.main_in in Hout. apply csv_main_ret in Hout.
    destruct Hout as (sorted & Hs & Ht & Hl & _).
    split; [exact Hl|]. intros r Hr. rewrite Ht in Hr.
    apply slice_to_incl in Hr.
    eapply Permutation_in; [symmetry; apply csv_sort_perm, Hs | exact Hr].
Qed.

Example printed_table_try :
  printed_table args_a [good_entry "005930"; lonely]
  = Ret [""; "Symbol      Rev_G1(%)  Rev_G2(%)  OpM_G1(%)  OpM_G2(%)       MarketCap";
         "005930          20.00      22.22      33.33      80.00 20,000,000,000.0"].
Proof. vm_compute. reflexivity. Qed.

Example fmt_cap_try :
  map fmt_cap [F64.of_Z 0; F64.of_Z 999; F64.of_Z 1000; F64.of_Z (-1234567);
               F64.div (F64.of_Z 1234567) (F64.of_Z 4); F64.nan;
               F64.div (F64.of_Z 1) (F64.of_Z 4); F64.div (F64.of_Z 3) (F64.of_Z 4)]
  = ["0.0"; "999.0"; "1,000.0"; "-1,234,567.0"; "308,641.8"; "nan"; "0.2"; "0.8"].
Proof. vm_compute. reflexivity. Qed.

(** ** The printed table *)

Lemma string_length_append (s t : String.string) :
  String.length (String.append s t) = (String.length s + String.length t)%nat.
Proof. induction s as [|c s IH]; simpl; [reflexivity | now rewrite IH]. Qed.

Lemma spaces_length (n : nat) : String.length (spaces n) = n.
Proof.
  induction n as [|n IH]; [reflexivity|].
  cbn [spaces]. rewrite string_length_append, IH. reflexivity.
Qed.

Lemma ljust_length (w : nat) (s : String.string) :
  String.length (ljust w s) = Nat.max w (String.length s).
Proof. unfold ljust. rewrite string_length_append, spaces_length. lia. Qed.

Lemma rjust_length (w : nat) (s : String.string) :
  String.length (rjust w s) = Nat.max w (String.length s).
Proof. unfold rjust. rewrite string_length_append, spaces_length. lia. Qed.

(** X17: a line of the table is never cut: each field takes its width or, when
    longer, its own length, with one blank between fields.  So a line is
    at least as wide as the 70 characters of the heading, and exactly as
    wide when every field fits its column. *)
Theorem table_line_width (r : result_row) :
  String.length (table_line r)
  = (Nat.max 10 (String.length (symbol r))
     + Nat.max 10 (String.length (fmt (rev_g1 r)))
     + Nat.max 10 (String.length (fmt (rev_g2 r)))
     + Nat.max 10 (String.length (fmt (opm_g1 r)))
     + Nat.max 10 (String.length (fmt (opm_g2 r)))
     + Nat.max 15 (String.length (fmt_cap (mcap r))) + 5)%nat
  /\ String.length heading = 70%nat
  /\ (String.length heading <= String.length (table_line r))%nat.
Proof.
  assert (Hw : String.length (table_line r)
               = (Nat.max 10 (String.length (symbol r))
                  + Nat.max 10 (String.length (fmt (rev_g1 r)))
                  + Nat.max 10 (String.length (fmt (rev_g2 r)))
                  + Nat.max 10 (String.length (fmt (opm_g1 r)))
                  + Nat.max 10 (String.length (fmt (opm_g2 r)))
                  + Nat.max 15 (String.length (fmt_cap (mcap r))) + 5)%nat).
  { unfold table_line, join_fields. cbn [String.concat].
    rewrite !string_length_append, ljust_length, !rjust_length.
    cbn [String.length]. lia. }
  split; [exact Hw|]. split; [reflexivity|].
  rewrite Hw. change (String.length heading) with 70%nat. lia.
Qed.

(** ** The digits that fmt prints *)

Lemma round_half_even_near (num den : Z) :
  0 < den ->
  2 * Z.abs (num - round_half_even num den * den) <= den.
Proof.
  intros Hd. unfold round_half_even.
  pose proof (Z.div_mod num den ltac:(lia)) as Hdm.
  pose proof (Z.mod_pos_bound num den Hd) as Hb.
  destruct (Z.compare_spec (2 * (num mod den)) den) as [E|E|E];
    [destruct (Z.even (num / den))| |]; nia.
Qed.

(** X18: for a finite value [fmt] prints the sign and the hundredths nearest to
    the magnitude [m * 2^e]: exactly [100 * m * 2^e] when that is an
    integer ([e >= 0]), and otherwise an integer [h] with
    [|100 * m - h * 2^(-e)| <= 2^(-e) / 2]. *)
Theorem fmt_rounds_to_nearest_hundredth (s : bool) (m : positive) (e : Z) :
  exists h,
    fmt (S754_finite s m e) = fixed2 s h
    /\ (0 <= e -> h = Zpos m * 2 ^ e * 100)
    /\ (e < 0 -> 2 * Z.abs (Zpos m * 100 - h * 2 ^ (- e)) <= 2 ^ (- e)).
Proof.
  exists (hundredths m e). split; [reflexivity|]. unfold hundredths.
  split; intros He.
  - destruct (Z.leb_spec 0 e); [reflexivity | lia].
  - destruct (Z.leb_spec 0 e); [lia|].
    apply round_half_even_near. apply Z.pow_pos_nonneg; lia.
Qed.

(** ** When the growth computation fails *)

Lemma anchor_body_found (df rows : frame) (i : nat) (st : growth)
  (row p : fs_row) :
  is_unique (map key_of df) = true ->
  iloc rows i = Ret row ->
  In row df -> In p df -> key_of p = (year row - 1, quarter row) ->
  anchor_body df rows i st
  = Ret (mkGrowth (rev_growths st ++ revenue_entry row p)
                  (opm_growths st ++ op_margin_entry row p)
                  (if Nat.eqb i 0
                   then mkRecent (Some (Scalar (revenue row)))
                                 (Some (Scalar (op_margin row)))
                   else recent st)).
Proof.
  intros Hu Hrow Hin Hp Hk. unfold anchor_body. rewrite Hrow. cbn [bind].
  rewrite (loc_found df (year row, quarter row) row Hu Hin eq_refl).
  rewrite (loc_found df _ p Hu Hp Hk).
  cbn [bind column]. rewrite revenue_step_scalar, op_margin_step_scalar.
  reflexivity.
Qed.

Lemma prior_year_present (df : frame) (r : fs_row) :
  prior_year_absent df r = false ->
  exists p, In p df /\ key_of p = (year r - 1, quarter r).
Proof.
  unfold prior_year_absent. rewrite negb_false_iff, existsb_exists.
  intros [p [Hin Hk]]. exists p. split; [exact Hin | now apply key_eqb_eq].
Qed.

Lemma anchor_body_lines_raise (df rows : frame) (i : nat) (st : growth)
  (row : fs_row) :
  iloc rows i = Ret row ->
  anchor_body df rows i st = Raise ValueError ->
  is_unique (map key_of df) = false.
Proof.
  intros Hrow H.
  destruct (is_unique (map key_of df)) eqn:Hu; [|reflexivity].
  pose proof (anchor_body_unique_raise _ _ _ _ _ _ Hu Hrow H). discriminate.
Qed.

(** The computation raises only [ValueError], and only on records with a
    repeated (year, quarter) key. *)
Lemma get_annual_growth_raise (df : frame) (e : exn) :
  get_annual_growth df 2 = Raise e ->
  e = ValueError /\ is_unique (map key_of df) = false.
Proof.
  intros H.
  destruct (le_lt_dec 2 (List.length df)) as [Hl|Hl];
    [|rewrite (get_annual_growth_short df Hl) in H; discriminate].
  destruct (sorted_two df Hl) as [r0 [r1 [rest Hs]]].
  rewrite (get_annual_growth_two df r0 r1 rest Hs) in H.
  assert (Hu : is_unique (map key_of (r0 :: r1 :: rest)) = false ->
               is_unique (map key_of df) = false).
  { intros Hf. destruct (is_unique (map key_of df)) eqn:Hd; [|reflexivity].
    apply is_unique_sorted in Hd. rewrite Hs in Hd. congruence. }
  cbn [anchor_loop] in H.
  assert (H0 : iloc [r0; r1] 0 = Ret r0) by reflexivity.
  assert (H1 : iloc [r0; r1] 1 = Ret r1) by reflexivity.
  destruct (anchor_body _ [r0; r1] 0 no_growth) as [st1|e0] eqn:E0.
  - destruct (anchor_body _ [r0; r1] 1 st1) as [st2|e1] eqn:E1;
      [discriminate|].
    destruct (anchor_body_raise _ _ _ _ _ _ H1 E1) as [->| ->];
      [discriminate|].
    inversion H; subst. split; [reflexivity|].
    apply Hu. exact (anchor_body_lines_raise _ _ _ _ _ H1 E1).
  - destruct (anchor_body_raise _ _ _ _ _ _ H0 E0) as [->| ->];
      [discriminate|].
    inversion H; subst. split; [reflexivity|].
    apply Hu. exact (anchor_body_lines_raise _ _ _ _ _ H0 E0).
Qed.

(** X19: on records with pairwise distinct (year, quarter) keys the computation
    returns, and it returns NoData exactly when there are fewer than two
    records or the prior-year key of an anchor is missing. *)
Theorem distinct_keys_never_raise (df : frame) :
  is_unique (map key_of df) = true ->
  (exists o, get_annual_growth df 2 = Ret o)
  /\ (get_annual_growth df 2 = Ret None
      <-> (List.length df < 2)%nat
          \/ existsb (prior_year_absent df) (anchors df) = true).
Proof.
  intros Hu.
  assert (Hret : exists o, get_annual_growth df 2 = Ret o).
  { destruct (get_annual_growth df 2) as [o|e] eqn:E; [eauto|].
    destruct (get_annual_growth_raise df e E) as [_ Hf]. congruence. }
  split; [exact Hret|]. split.
  - intros Hnone.
    destruct (le_lt_dec 2 (List.length df)) as [Hl|Hl]; [right | left; exact Hl].
    destruct (existsb (prior_year_absent df) (anchors df)) eqn:Habs;
      [reflexivity | exfalso].
    destruct (sorted_two df Hl) as [r0 [r1 [rest Hs]]].
    unfold anchors in Habs. rewrite Hs in Habs. cbn [firstn existsb] in Habs.
    rewrite orb_false_r in Habs. apply orb_false_iff in Habs.
    destruct Habs as [A0 A1].
    rewrite <- (prior_year_absent_sorted df), Hs in A0, A1.
    apply prior_year_present in A0, A1.
    destruct A0 as [p0 [Hp0 Hk0]], A1 as [p1 [Hp1 Hk1]].
    assert (Hu' : is_unique (map key_of (r0 :: r1 :: rest)) = true)
      by (rewrite <- Hs; apply is_unique_sorted, Hu).
    rewrite (get_annual_growth_two df r0 r1 rest Hs) in Hnone.
    cbn [anchor_loop] in Hnone.
    rewrite (anchor_body_found (r0 :: r1 :: rest) [r0; r1] 0 no_growth r0 p0
               Hu' eq_refl (or_introl eq_refl) Hp0 Hk0) in Hnone.
    rewrite (anchor_body_found (r0 :: r1 :: rest) [r0; r1] 1 _ r1 p1
               Hu' eq_refl (or_intror (or_introl eq_refl)) Hp1 Hk1) in Hnone.
    discriminate.
  - intros [Hl|Habs]; [apply get_annual_growth_short, Hl|].
    destruct (le_lt_dec 2 (List.length df)) as [Hl|Hl];
      [|apply get_annual_growth_short, Hl].
    destruct (sorted_two df Hl) as [r0 [r1 [rest Hs]]].
    rewrite (get_annual_growth_two df r0 r1 rest Hs).
    unfold anchors in Habs. rewrite Hs in Habs. cbn [firstn existsb] in Habs.
    rewrite orb_false_r in Habs.
    rewrite <- !(prior_year_absent_sorted df), Hs in Habs.
    apply (anchor_loop_prior_absent _ r0 r1 Habs).
    rewrite <- Hs. apply is_unique_sorted, Hu.
Qed.

Lemma distinct_keys_never_raise_witness :
  (exists o, get_annual_growth scenario_a 2 = Ret o)
  /\ (get_annual_growth scenario_a 2 = Ret None
      <-> (List.length scenario_a < 2)%nat
          \/ existsb (prior_year_absent scenario_a) (anchors scenario_a)
             = true).
Proof. apply (distinct_keys_never_raise scenario_a). reflexivity. Defined.

Lemma threshold_filter_returns (a : args) (df : frame) (g : growth) :
  get_annual_growth df 2 = Ret (Some g) ->
  exists why, threshold_filter a g = Ret why.
Proof.
  intros Hg.
  destruct (sort_values_desc fs_date df) as [|r0 rest] eqn:Hs.
  - exfalso. unfold get_annual_growth in Hg. rewrite Hs in Hg. discriminate.
  - pose proof (recent_is_first_anchor df g r0 Hg) as Hrec.
    rewrite Hs in Hrec. specialize (Hrec eq_refl).
    unfold threshold_filter. rewrite Hrec.
    cbn [rv_revenue rv_op_margin below_limit scalar bind].
    destruct (F64.ltb (revenue r0) (revenue_limit a)); [eauto|].
    destruct (F64.ltb (op_margin r0) (op_margin_limit a)); eauto.
Qed.

(** X20: with two files that load, processing a symbol can fail in two ways
    only: with [ValueError], on fundamentals with a repeated (year,
    quarter) key, and with [IndexError], on a market-cap file without a
    line. *)
Theorem process_symbol_failures (a : args) (sym : String.string)
  (fs_df : frame) (ms_df : list ms_row) (ex : exn) :
  process_symbol a sym (Ret fs_df) (Ret ms_df) = Raise ex ->
  (ex = ValueError /\ is_unique (map key_of fs_df) = false)
  \/ (ex = IndexError /\ ms_df = []).
Proof.
  unfold process_symbol. cbn [bind].
  destruct (get_annual_growth fs_df 2) as [[g|]|e] eqn:Hg; cbn [bind].
  - destruct (threshold_filter_returns a fs_df g Hg) as [why ->]. cbn [bind].
    destruct why as [why|]; [discriminate|].
    unfold get_latest_market_cap.
    pose proof (stable_sort_length
                  (fun x y => date_ltb (ms_date y) (ms_date x)) ms_df) as Hl.
    fold (sort_values_desc ms_date ms_df) in Hl.
    destruct (sort_values_desc ms_date ms_df) as [|r rest]; cbn [bind];
      [|discriminate].
    intros H; inversion H; subst. right. split; [reflexivity|].
    destruct ms_df; [reflexivity | discriminate].
  - discriminate.
  - intros H; inversion H; subst. left.
    exact (get_annual_growth_raise fs_df ex Hg).
Qed.

Lemma process_symbol_failures_witness :
  (ValueError = ValueError /\ is_unique (map key_of repeated_prior) = false)
  \/ (ValueError = IndexError /\ caps_a = []).
Proof.
  apply (process_symbol_failures args_a "A" repeated_prior caps_a ValueError).
  reflexivity.
Defined.

(** X21: the latest market cap does not depend on the order of the lines of the
    file when no two lines have the same date. *)
Theorem get_latest_market_cap_ignores_line_order (df df' : list ms_row) :
  Permutation df df' ->
  distinct_dates (map ms_date df) = true ->
  get_latest_market_cap df = get_latest_market_cap df'.
Proof.
  intros Hp Hd. unfold get_latest_market_cap, sort_values_desc.
  rewrite (stable_sort_perm_unique
             (fun x y => date_ltb (ms_date y) (ms_date x)) (fun _ => True))
    with (l2 := df'); auto.
  - intros x y. apply date_ltb_asym.
  - intros x y z _ H1 H2. exact (date_not_ltb_trans _ _ _ H2 H1).
  - apply Forall_forall. auto.
  - intros x y Hx Hy H1 H2.
    apply (distinct_dates_inj ms_date df Hd); auto.
    apply date_ltb_total; assumption.
Qed.

Lemma get_latest_market_cap_ignores_line_order_witness :
  get_latest_market_cap caps_a = get_latest_market_cap (rev caps_a).
Proof.
  apply (get_latest_market_cap_ignores_line_order caps_a (rev caps_a));
    [apply Permutation_rev | reflexivity].
Defined.

(** ** The floors of an accepted symbol *)



(** ** The data model as a case of the columns as they are read

    On float64 columns and market caps that are float64 numbers the
    definitions of [Csv] give what the definitions of the data model
    give. *)

Lemma insert_map {A B : Type} (f : A -> B) (lt : A -> A -> bool)
  (lt' : B -> B -> bool) :
  (forall x y, lt' (f x) (f y) = lt x y) ->
  forall x l, insert lt' (f x) (map f l) = map f (insert lt x l).
Proof.
  intros H x l. induction l as [|y l IH]; cbn [insert map]; [reflexivity|].
  rewrite H. destruct (lt y x); cbn [map]; [now rewrite IH | reflexivity].
Qed.

Lemma stable_sort_map {A B : Type} (f : A -> B) (lt : A -> A -> bool)
  (lt' : B -> B -> bool) :
  (forall x y, lt' (f x) (f y) = lt x y) ->
  forall l, stable_sort lt' (map f l) = map f (stable_sort lt l).
Proof.
  intros H l. unfold stable_sort.
  induction l as [|x l IH]; cbn [fold_right map]; [reflexivity|].
  rewrite IH. apply insert_map, H.
Qed.

Lemma csv_sort_values_desc_fs (df : frame) :
  sort_values_desc Csv.fs_date (map csv_fs_row df)
  = map csv_fs_row (sort_values_desc fs_date df).
Proof. apply stable_sort_map. reflexivity. Qed.

Lemma csv_sort_values_desc_ms (df : list ms_row) :
  sort_values_desc Csv.ms_date (map csv_ms_row df)
  = map csv_ms_row (sort_values_desc ms_date df).
Proof. apply stable_sort_map. reflexivity. Qed.

Lemma csv_filter_has_key (k : key) (df : frame) :
  filter (Csv.has_key k) (map csv_fs_row df)
  = map csv_fs_row (filter (has_key k) df).
Proof.
  induction df as [|r df IH]; cbn [filter map]; [reflexivity|].
  change (Csv.has_key k (csv_fs_row r)) with (has_key k r).
  destruct (has_key k r); cbn [map]; now rewrite IH.
Qed.

Lemma csv_loc (df : frame) (k : key) :
  Csv.loc (map csv_fs_row df) k = csv_res csv_selection (loc df k).
Proof.
  unfold Csv.loc, loc. rewrite csv_filter_has_key, map_map.
  change (map (fun x => Csv.key_of (csv_fs_row x)) df) with (map key_of df).
  destruct (filter (has_key k) df) as [|r [|r' rs]]; cbn [map csv_res];
    try reflexivity.
  destruct (is_unique (map key_of df)); reflexivity.
Qed.

Lemma csv_revenue_step (c p : cell) (acc : list F64.float) :
  Csv.revenue_step (csv_cell c) (csv_cell p) acc = revenue_step c p acc.
Proof.
  unfold Csv.revenue_step, revenue_step.
  destruct c as [x|xs]; cbn [csv_cell Csv.scalar scalar bind];
    [|reflexivity].
  cbn [Csv.notna]. destruct (F64.notna x); [|reflexivity].
  destruct p as [y|ys]; cbn [csv_cell Csv.scalar scalar bind]; reflexivity.
Qed.

Lemma csv_op_margin_step (c p : cell) (acc : list F64.float) :
  Csv.op_margin_step (csv_cell c) (csv_cell p) acc = op_margin_step c p acc.
Proof.
  unfold Csv.op_margin_step, op_margin_step.
  destruct c as [x|xs]; cbn [csv_cell Csv.scalar scalar bind];
    [|reflexivity].
  cbn [Csv.notna]. destruct (F64.notna x); [|reflexivity].
  destruct p as [y|ys]; cbn [csv_cell Csv.scalar scalar bind]; reflexivity.
Qed.

Lemma csv_column_revenue (s : selection) :
  Csv.column Csv.revenue (csv_selection s) = csv_cell (column revenue s).
Proof. destruct s as [r|rs]; cbn; [reflexivity | now rewrite !map_map]. Qed.

Lemma csv_column_op_margin (s : selection) :
  Csv.column Csv.op_margin (csv_selection s) = csv_cell (column op_margin s).
Proof. destruct s as [r|rs]; cbn; [reflexivity | now rewrite !map_map]. Qed.

Lemma csv_iloc {A B : Type} (f : A -> B) (l : list A) (i : nat) :
  iloc (map f l) i = csv_res f (iloc l i).
Proof.
  unfold iloc. rewrite nth_error_map.
  destruct (nth_error l i); reflexivity.
Qed.

Lemma csv_anchor_body (df rows : frame) (i : nat) (st : growth) :
  Csv.anchor_body (map csv_fs_row df) (map csv_fs_row rows) i (csv_growth st)
  = csv_res csv_growth (anchor_body df rows i st).
Proof.
  unfold Csv.anchor_body, anchor_body. rewrite csv_iloc.
  destruct (iloc rows i) as [row|e]; cbn [csv_res bind]; [|reflexivity].
  change (Csv.year (csv_fs_row row)) with (year row).
  change (Csv.quarter (csv_fs_row row)) with (quarter row).
  rewrite !csv_loc.
  destruct (loc df (year row, quarter row)) as [curr|e]; cbn [csv_res bind];
    [|reflexivity].
  destruct (loc df (year row - 1, quarter row)) as [prev|e];
    cbn [csv_res bind]; [|reflexivity].
  rewrite !csv_column_revenue, !csv_column_op_margin.
  cbn [csv_growth Csv.rev_growths Csv.opm_growths Csv.recent].
  rewrite csv_revenue_step.
  destruct (revenue_step _ _ _) as [revs|e]; cbn [bind csv_res];
    [|reflexivity].
  rewrite csv_op_margin_step.
  destruct (op_margin_step _ _ _) as [opms|e]; cbn [bind csv_res];
    [|reflexivity].
  destruct (Nat.eqb i 0); reflexivity.
Qed.

Lemma csv_anchor_loop (df rows : frame) (idx : list nat) (st : growth) :
  Csv.anchor_loop (map csv_fs_row df) (map csv_fs_row rows) idx
                  (csv_growth st)
  = csv_res (option_map csv_growth) (anchor_loop df rows idx st).
Proof.
  revert st. induction idx as [|i idx IH]; intros st;
    cbn [Csv.anchor_loop anchor_loop]; [reflexivity|].
  rewrite csv_anchor_body.
  destruct (anchor_body df rows i st) as [st'|e]; cbn [csv_res].
  - apply IH.
  - destruct e; reflexivity.
Qed.

(** On float64 columns [get_annual_growth] is the function of the data
    model. *)
Lemma csv_get_annual_growth (df : frame) (n : nat) :
  Csv.get_annual_growth (map csv_fs_row df) n
  = csv_res (option_map csv_growth) (get_annual_growth df n).
Proof.
  unfold Csv.get_annual_growth, get_annual_growth.
  rewrite csv_sort_values_desc_fs, length_map, firstn_map.
  destruct (Nat.ltb _ n); [reflexivity|].
  apply (csv_anchor_loop _ _ _ no_growth).
Qed.

Lemma csv_below_limit (v : option cell) (limit : F64.float) :
  Csv.below_limit (option_map csv_cell v) limit = below_limit v limit.
Proof. destruct v as [[x|xs]|]; reflexivity. Qed.

Lemma csv_threshold_filter (a : args) (g : growth) :
  Csv.threshold_filter a (csv_growth g) = threshold_filter a g.
Proof.
  unfold Csv.threshold_filter, threshold_filter.
  cbn [csv_growth Csv.recent Csv.rv_revenue Csv.rv_op_margin
       Csv.rev_growths Csv.opm_growths].
  now rewrite !csv_below_limit.
Qed.

Lemma csv_get_latest_market_cap (df : list ms_row) :
  Csv.get_latest_market_cap (map csv_ms_row df)
  = csv_res (fun x => Csv.Number (Csv.Float64 x)) (get_latest_market_cap df).
Proof.
  unfold Csv.get_latest_market_cap, get_latest_market_cap.
  rewrite csv_sort_values_desc_ms.
  destruct (sort_values_desc ms_date df); reflexivity.
Qed.

Lemma csv_process_symbol (a : args) (sym : String.string)
  (fs_file : res frame) (ms_file : res (list ms_row)) :
  Csv.process_symbol a sym (csv_res (map csv_fs_row) fs_file)
                     (csv_res (map csv_ms_row) ms_file)
  = csv_res csv_verdict (process_symbol a sym fs_file ms_file).
Proof.
  unfold Csv.process_symbol, process_symbol.
  destruct fs_file as [fs_df|e]; cbn [csv_res bind]; [|reflexivity].
  destruct ms_file as [ms_df|e]; cbn [csv_res bind]; [|reflexivity].
  rewrite csv_get_annual_growth.
  destruct (get_annual_growth fs_df 2) as [[g|]|e];
    cbn [csv_res option_map bind]; try reflexivity.
  rewrite csv_threshold_filter.
  destruct (threshold_filter a g) as [[why|]|e]; cbn [csv_res bind];
    try reflexivity.
  rewrite csv_get_latest_market_cap.
  destruct (get_latest_market_cap ms_df) as [cap|e]; reflexivity.
Qed.

Lemma csv_entry_verdict (a : args) (e : entry) :
  Csv.entry_verdict a (csv_entry e) = csv_verdict (entry_verdict a e).
Proof.
  unfold Csv.entry_verdict, entry_verdict.
  cbn [csv_entry Csv.e_ms Csv.e_fs Csv.e_symbol].
  destruct (e_ms e) as [ms_file|]; cbn [option_map]; [|reflexivity].
  rewrite csv_process_symbol.
  destruct (process_symbol a (e_symbol e) (e_fs e) ms_file); reflexivity.
Qed.

Lemma csv_accepted_rows (a : args) (es : list entry) :
  flat_map (Csv.accepted_row a) (map csv_entry es)
  = map csv_result_row (flat_map (accepted_row a) es).
Proof.
  induction es as [|e es IH]; cbn [flat_map map]; [reflexivity|].
  rewrite map_app, IH. f_equal.
  unfold Csv.accepted_row, accepted_row. rewrite csv_entry_verdict.
  destruct (entry_verdict a e); reflexivity.
Qed.

Lemma csv_skipped_lines (a : args) (es : list entry) :
  flat_map (Csv.skipped_line a) (map csv_entry es)
  = flat_map (skipped_line a) es.
Proof.
  induction es as [|e es IH]; cbn [flat_map map]; [reflexivity|].
  rewrite IH. f_equal.
  unfold Csv.skipped_line, skipped_line. rewrite csv_entry_verdict.
  destruct (entry_verdict a e); reflexivity.
Qed.

Lemma csv_insert (x : result_row) (l : list result_row) :
  Csv.insert (csv_result_row x) (map csv_result_row l)
  = Ret (map csv_result_row
           (insert (fun x y => F64.ltb (mcap x) (mcap y)) x l)).
Proof.
  induction l as [|y l IH]; cbn [Csv.insert insert map]; [reflexivity|].
  cbn [csv_result_row Csv.mcap Csv.key_lt Csv.ltb Csv.to_float bind].
  destruct (F64.ltb (mcap y) (mcap x)); [|reflexivity].
  change (Csv.mkResult (symbol x) (rev_g1 x) (rev_g2 x) (opm_g1 x) (opm_g2 x)
            (Csv.Number (Csv.Float64 (mcap x)))) with (csv_result_row x).
  rewrite IH. reflexivity.
Qed.

Lemma csv_sort (rs : list result_row) :
  Csv.sort (map csv_result_row rs)
  = Ret (map csv_result_row (sort_by_market_cap rs)).
Proof.
  unfold sort_by_market_cap, stable_sort.
  induction rs as [|r rs IH]; cbn [Csv.sort fold_right map]; [reflexivity|].
  rewrite IH. cbn [bind]. apply csv_insert.
Qed.

Lemma csv_print_lines (rs : list result_row) :
  Csv.print_lines (map csv_result_row rs) = Ret (map table_line rs).
Proof.
  induction rs as [|r rs IH]; cbn [Csv.print_lines map]; [reflexivity|].
  rewrite IH. reflexivity.
Qed.

Lemma slice_to_map {A B : Type} (f : A -> B) (n : Z) (l : list A) :
  slice_to n (map f l) = map f (slice_to n l).
Proof.
  unfold slice_to. rewrite length_map.
  destruct (0 <=? n); now rewrite firstn_map.
Qed.

(** On frames of the data model the run of [Csv] returns, with the table
    and the skip lines of [main] and the lines of [printed_table]. *)
Lemma csv_main (a : args) (es : list entry) :
  exists table log,
    main a es = Ret (table, log)
    /\ printed_table a es
       = Ret (String.EmptyString :: heading :: map table_line table)
    /\ Csv.main a (map csv_entry es)
       = Ret (Csv.mkOutput (map csv_result_row table)
                (String.EmptyString :: heading :: map table_line table)
                log).
Proof.
  unfold printed_table, main, Csv.main.
  rewrite main_loop_runs, csv_main_loop_runs.
  cbn [bind results skipped Csv.results Csv.skipped app fst].
  do 2 eexists. split; [reflexivity|]. split; [reflexivity|].
  rewrite csv_accepted_rows, csv_skipped_lines, csv_sort. cbn [bind].
  unfold rank. rewrite slice_to_map, csv_print_lines. reflexivity.
Qed.

